(** * Shippo MCP server: request pipeline, error taxonomy, formatters

    A shallow embedding of the credential-scoped Shippo client
    (client.ts), the credential parser (types/env.ts), the response
    formatters (utils/formatters.ts) and the tool handlers (tools/*.ts),
    followed by the properties of the specification that concern them.

    Conventions of the embedding:
    - a JavaScript string is a [string] of bytes (UTF-8);
    - a JavaScript value that flows through the code is a [Js.value];
    - a plain object is the list of its own enumerable properties in
      the order [Object.entries] lists them;
    - an [async] function is a computation in the monad [M]: it threads
      the log of outbound network calls and ends in a value or in a
      thrown error. *)

From Stdlib Require Import ZArith List String Ascii Bool Lia DecimalString.
Import ListNotations.
Local Open Scope string_scope.
Local Open Scope Z_scope.
Set Warnings "-register-all".

(* ================================================================= *)
(** ** JavaScript values and the built-ins the code calls *)

Module Js.

(** Numbers that the code inspects: the integers among the doubles, the
    two infinities and NaN.  Fractions pass through the program untouched
    and are not modelled.  [Int z] stands for the double nearest to [z]:
    [z] itself when it is one (every integer below 2^53 is). *)
Inductive number : Type :=
| NaN
| PosInfinity
| NegInfinity
| Int (z : Z).

Inductive value : Type :=
| VUndefined
| VNull
| VBool (b : bool)
| VNumber (n : number)
| VString (s : string)
| VArray (items : list value)
| VObject (props : list (string * value)).

Definition object : Type := list (string * value).

(** The character with code 34, which delimits JSON strings. *)
Definition dquote : string := String (ascii_of_nat 34) EmptyString.
Definition newline : string := String (ascii_of_nat 10) EmptyString.

Definition string_of_Z (z : Z) : string := NilZero.string_of_int (Z.to_int z).

Definition isEmpty (s : string) : bool :=
  match s with EmptyString => true | String _ _ => false end.

(** [Array.prototype.join] on strings. *)
Fixpoint join (sep : string) (parts : list string) : string :=
  match parts with
  | [] => EmptyString
  | [p] => p
  | p :: rest => p ++ sep ++ join sep rest
  end.

(** The double nearest to an integer (ties to the even significand):
    an integer again, or an infinity from 2^1024 - 2^970 on. *)
Definition toDouble (z : Z) : number :=
  let a := Z.abs z in
  if a <? 2 ^ 53 then Int z
  else
    let unit := 2 ^ (Z.log2 a - 52) in
    let q := a / unit in
    let r := a mod unit in
    let m := if (unit <? 2 * r) || ((unit =? 2 * r) && Z.odd q)
             then q + 1 else q in
    if m * unit <? 2 ^ 1024 then Int (Z.sgn z * (m * unit))
    else if z <? 0 then NegInfinity else PosInfinity.

(** Whether the decimal [c] denotes the double [x]. *)
Definition denotes (c x : Z) : bool :=
  match toDouble c with
  | Int y => y =? x
  | _ => false
  end.

(** The decimal with the fewest significant digits that denotes the
    double [x] (of [n] digits), the nearest to [x] among those, the even
    one of two equally near: [k] is the number of digits tried. *)
Fixpoint shortestDecimal (x n : Z) (fuel : nat) (k : Z) : Z :=
  match fuel with
  | O => x
  | S fuel' =>
      let p := 10 ^ (n - k) in
      let below := x / p * p in
      let above := below + p in
      match denotes below x, denotes above x with
      | true, true =>
          if x - below <? above - x then below
          else if above - x <? x - below then above
          else if Z.even (x / p) then below else above
      | true, false => below
      | false, true => above
      | false, false => shortestDecimal x n fuel' (k + 1)
      end
  end.

Fixpoint dropFinalZeros (digits : string) : string :=
  match digits with
  | EmptyString => EmptyString
  | String c rest =>
      match dropFinalZeros rest with
      | EmptyString => if Ascii.eqb c "0" then EmptyString else String c EmptyString
      | kept => String c kept
      end
  end.

(** Number::toString of a positive integer double: plain digits below
    10^21, the exponent form [d.ddde+n] from there on. *)
Definition integerToString (x : Z) : string :=
  if x <? 10 ^ 21 then string_of_Z x
  else
    let n := Z.of_nat (String.length (string_of_Z x)) in
    let digits := string_of_Z (shortestDecimal x n 17 1) in
    let exponent := string_of_Z (Z.of_nat (String.length digits) - 1) in
    match dropFinalZeros digits with
    | EmptyString => digits
    | String d EmptyString => String d EmptyString ++ "e+" ++ exponent
    | String d more => String d EmptyString ++ "." ++ more ++ "e+" ++ exponent
    end.

Definition Number_toString (n : number) : string :=
  match n with
  | NaN => "NaN"
  | PosInfinity => "Infinity"
  | NegInfinity => "-Infinity"
  | Int z =>
      match toDouble z with
      | Int x => if x <? 0 then "-" ++ integerToString (- x)
                 else integerToString x
      | PosInfinity => "Infinity"
      | NegInfinity => "-Infinity"
      | NaN => "NaN"
      end
  end.

(** The text of [String(v)] and of a template hole when the conversion
    does not throw; [String_of] below is the conversion itself, which
    throws on an object that has a property of its own named toString.
    This total form is used where the value is a primitive: the scalar
    parameters of a query string, the branches of the formatters that
    have excluded objects and arrays, the message of an error. *)
Fixpoint ToString (v : value) : string :=
  match v with
  | VUndefined => "undefined"
  | VNull => "null"
  | VBool true => "true"
  | VBool false => "false"
  | VNumber n => Number_toString n
  | VString s => s
  | VArray items =>
      join "," (map (fun x => match x with
                              | VUndefined | VNull => EmptyString
                              | _ => ToString x
                              end) items)
  | VObject _ => "[object Object]"
  end.

(** [ToBoolean]: what [if (v)], [!v] and [v || w] test. *)
Definition truthy (v : value) : bool :=
  match v with
  | VUndefined | VNull => false
  | VBool b => b
  | VNumber NaN => false
  | VNumber (Int z) => negb (z =? 0)
  | VNumber _ => true
  | VString s => negb (isEmpty s)
  | VArray _ | VObject _ => true
  end.

(** [a || b] *)
Definition or_else (a b : value) : value := if truthy a then a else b.

(** [a ?? b] *)
Definition nullish_else (a b : value) : value :=
  match a with VUndefined | VNull => b | _ => a end.

Fixpoint lookup {A : Type} (k : string) (o : list (string * A)) : option A :=
  match o with
  | [] => None
  | (k', v) :: rest => if String.eqb k k' then Some v else lookup k rest
  end.

(** Property assignment [o[k] = v]: an existing key keeps its place. *)
Fixpoint objSet {A : Type} (k : string) (v : A) (o : list (string * A))
  : list (string * A) :=
  match o with
  | [] => [(k, v)]
  | (k', v') :: rest =>
      if String.eqb k k' then (k, v) :: rest else (k', v') :: objSet k v rest
  end.

(** Object spread [{...a, ...b}]. *)
Definition objSpread {A : Type} (a b : list (string * A)) : list (string * A) :=
  fold_left (fun o kv => objSet (fst kv) (snd kv) o) b a.

(** *** Number.parseInt(s, 10) *)

(** White space and line terminators that [parseInt] skips, each as the
    bytes of its UTF-8 encoding: U+0009 to U+000D, U+0020, U+00A0,
    U+1680, U+2000 to U+200A, U+2028, U+2029, U+202F, U+205F, U+3000 and
    U+FEFF. *)
Definition isStrWhiteSpaceChar (bytes : list nat) : bool :=
  match bytes with
  | [b] => existsb (Nat.eqb b) [9; 10; 11; 12; 13; 32]%nat
  | [194; 160] => true
  | [225; 154; 128] => true
  | [226; 128; b] =>
      ((128 <=? b) && (b <=? 138))%nat
      || existsb (Nat.eqb b) [168; 169; 175]%nat
  | [226; 129; 159] => true
  | [227; 128; 128] => true
  | [239; 187; 191] => true
  | _ => false
  end%nat.

Fixpoint trimStart (s : string) : string :=
  match s with
  | EmptyString => EmptyString
  | String c1 rest1 =>
      let b1 := nat_of_ascii c1 in
      if isStrWhiteSpaceChar [b1] then trimStart rest1
      else
        match rest1 with
        | EmptyString => s
        | String c2 rest2 =>
            let b2 := nat_of_ascii c2 in
            if isStrWhiteSpaceChar [b1; b2] then trimStart rest2
            else
              match rest2 with
              | EmptyString => s
              | String c3 rest3 =>
                  if isStrWhiteSpaceChar [b1; b2; nat_of_ascii c3]
                  then trimStart rest3 else s
              end
        end
  end.

Definition digitValue (c : ascii) : option Z :=
  let n := Z.of_nat (nat_of_ascii c) in
  if (48 <=? n) && (n <=? 57) then Some (n - 48) else None.

(** Value of the longest prefix of decimal digits, [None] when that
    prefix is empty. *)
Fixpoint digitsPrefix (s : string) (acc : option Z) : option Z :=
  match s with
  | EmptyString => acc
  | String c rest =>
      match digitValue c with
      | Some d =>
          digitsPrefix rest
            (Some (10 * match acc with Some a => a | None => 0 end + d))
      | None => acc
      end
  end.

(** The digits are read exactly and rounded once (the language lets an
    implementation disregard digits after the twentieth). *)
Definition Number_parseInt10 (input : string) : number :=
  let trimmed := trimStart input in
  let '(sign, digits) :=
    match trimmed with
    | String "-" rest => (-1, rest)
    | String "+" rest => (1, rest)
    | _ => (1, trimmed)
    end in
  match digitsPrefix digits None with
  | Some n => toDouble (sign * n)
  | None => NaN
  end.

(** *** JSON.stringify(v, null, indent) *)

Definition hexDigit (upper : bool) (n : nat) : ascii :=
  if (n <? 10)%nat then ascii_of_nat (48 + n)
  else ascii_of_nat ((if upper then 55 else 87) + n).

Definition hex2 (upper : bool) (c : ascii) : string :=
  let n := nat_of_ascii c in
  String (hexDigit upper (n / 16)) (String (hexDigit upper (n mod 16)) EmptyString).

Definition escapeJSONChar (c : ascii) : string :=
  let n := nat_of_ascii c in
  if (n =? 8)%nat then "\b"
  else if (n =? 9)%nat then "\t"
  else if (n =? 10)%nat then "\n"
  else if (n =? 12)%nat then "\f"
  else if (n =? 13)%nat then "\r"
  else if (n =? 34)%nat then "\" ++ dquote
  else if (n =? 92)%nat then "\\"
  else if (n <? 32)%nat then "\u00" ++ hex2 false c
  else String c EmptyString.

Fixpoint escapeJSON (s : string) : string :=
  match s with
  | EmptyString => EmptyString
  | String c rest => escapeJSONChar c ++ escapeJSON rest
  end.

Definition QuoteJSONString (s : string) : string :=
  dquote ++ escapeJSON s ++ dquote.

(** Wraps the serialised members of an array or object. *)
Definition wrapMembers (gap indent : string) (opening closing : string)
    (partial : list string) : string :=
  match partial with
  | [] => opening ++ closing
  | _ =>
      if isEmpty gap then opening ++ join "," partial ++ closing
      else
        let inner := indent ++ gap in
        opening ++ newline ++ inner
          ++ join ("," ++ newline ++ inner) partial
          ++ newline ++ indent ++ closing
  end.

(** SerializeJSONProperty: [None] is the result [undefined]. *)
Fixpoint SerializeJSONProperty (gap indent : string) (v : value)
  : option string :=
  match v with
  | VUndefined => None
  | VNull => Some "null"
  | VBool true => Some "true"
  | VBool false => Some "false"
  | VNumber (Int z) =>
      match toDouble z with
      | Int _ => Some (Number_toString (Int z))
      | _ => Some "null"
      end
  | VNumber _ => Some "null"
  | VString s => Some (QuoteJSONString s)
  | VArray items =>
      Some (wrapMembers gap indent "[" "]"
              (map (fun x =>
                      match SerializeJSONProperty gap (indent ++ gap) x with
                      | Some s => s
                      | None => "null"
                      end) items))
  | VObject props =>
      Some (wrapMembers gap indent "{" "}"
              (flat_map (fun kv =>
                      let '(k, x) := kv in
                      match SerializeJSONProperty gap (indent ++ gap) x with
                      | Some s =>
                          [QuoteJSONString k ++ ":"
                             ++ (if isEmpty gap then EmptyString else " ") ++ s]
                      | None => []
                      end) props))
  end.

(** [JSON.stringify(v)] *)
Definition JSON_stringify (v : value) : option string :=
  SerializeJSONProperty EmptyString EmptyString v.

(** [JSON.stringify(v, null, 2)] *)
Definition JSON_stringify_2 (v : value) : option string :=
  SerializeJSONProperty "  " EmptyString v.

(** *** URLSearchParams *)

Definition URLSearchParams : Type := list (string * string).

Definition removeName (name : string) (q : URLSearchParams) : URLSearchParams :=
  filter (fun kv => negb (String.eqb name (fst kv))) q.

(** [query.set(name, value)]: the first tuple named [name] takes the
    value and the others go; without one the tuple is appended. *)
Fixpoint URLSearchParams_set (name val : string) (q : URLSearchParams)
  : URLSearchParams :=
  match q with
  | [] => [(name, val)]
  | (n, v) :: rest =>
      if String.eqb name n then (name, val) :: removeName name rest
      else (n, v) :: URLSearchParams_set name val rest
  end.

(** Bytes that application/x-www-form-urlencoded leaves as they are. *)
Definition isUrlencodedSafe (c : ascii) : bool :=
  let n := nat_of_ascii c in
  ((48 <=? n) && (n <=? 57) || (65 <=? n) && (n <=? 90)
   || (97 <=? n) && (n <=? 122)
   || existsb (Nat.eqb n) [42; 45; 46; 95])%nat.

Definition urlencodeByte (c : ascii) : string :=
  if isUrlencodedSafe c then String c EmptyString
  else if (nat_of_ascii c =? 32)%nat then "+"
  else "%" ++ hex2 true c.

Fixpoint urlencode (s : string) : string :=
  match s with
  | EmptyString => EmptyString
  | String c rest => urlencodeByte c ++ urlencode rest
  end.

Definition urlencodePair (kv : string * string) : string :=
  urlencode (fst kv) ++ "=" ++ urlencode (snd kv).

(** [query.toString()] *)
Definition URLSearchParams_toString (q : URLSearchParams) : string :=
  join "&" (map urlencodePair q).

(** *** Case of ASCII letters *)

Definition toUpperCaseChar (c : ascii) : ascii :=
  let n := nat_of_ascii c in
  if ((97 <=? n) && (n <=? 122))%nat then ascii_of_nat (n - 32) else c.

Definition toLowerCaseChar (c : ascii) : ascii :=
  let n := nat_of_ascii c in
  if ((65 <=? n) && (n <=? 90))%nat then ascii_of_nat (n + 32) else c.

Fixpoint toLowerCase (s : string) : string :=
  match s with
  | EmptyString => EmptyString
  | String c rest => String (toLowerCaseChar c) (toLowerCase rest)
  end.

End Js.

Import Js.

(** Induction on a value, with the property for the elements of an
    array and the property values of an object. *)
Section ValueInduction.

Variable P : value -> Prop.
Hypothesis Pundefined : P VUndefined.
Hypothesis Pnull : P VNull.
Hypothesis Pbool : forall b, P (VBool b).
Hypothesis Pnumber : forall n, P (VNumber n).
Hypothesis Pstring : forall s, P (VString s).
Hypothesis Parray : forall items, Forall P items -> P (VArray items).
Hypothesis Pobject :
  forall props, Forall (fun kv => P (snd kv)) props -> P (VObject props).

Fixpoint value_induction (v : value) : P v :=
  match v with
  | VUndefined => Pundefined
  | VNull => Pnull
  | VBool b => Pbool b
  | VNumber n => Pnumber n
  | VString s => Pstring s
  | VArray items =>
      Parray items
        ((fix all (xs : list value) : Forall P xs :=
            match xs with
            | [] => Forall_nil P
            | x :: rest => Forall_cons x (value_induction x) (all rest)
            end) items)
  | VObject props =>
      Pobject props
        ((fix all (kvs : list (string * value))
            : Forall (fun kv => P (snd kv)) kvs :=
            match kvs with
            | [] => Forall_nil _
            | kv :: rest => Forall_cons kv (value_induction (snd kv)) (all rest)
            end) props)
  end.

End ValueInduction.

(* ================================================================= *)
(** ** Error taxonomy (utils/errors.ts) *)

(** Modelled from the spec: utils/errors.ts, which declares the error
    classes, is not among the sources.  The specification gives a closed
    taxonomy of tagged failures: an authentication failure with a
    message, a rate-limit failure with a retry-after-seconds hint, and a
    generic API failure with a message and the numeric status code.
    Each constructor records the arguments client.ts passes to it.
    [OtherError] is any other [Error] instance (the [TypeError] of a
    failed fetch or of a property read on [undefined], the [SyntaxError]
    of a failed JSON parse); [ThrownValue] is a thrown value that is not
    an [Error] instance. *)
Inductive JsError : Type :=
| AuthenticationError (message : string)
| RateLimitError (message : string) (retryAfterSeconds : number)
| ShippoApiError (message : value) (statusCode : Z)
| OtherError (name : string) (message : string)
| ThrownValue (v : value).

(** [error instanceof Error] *)
Definition instanceofError (e : JsError) : bool :=
  match e with
  | ThrownValue _ => false
  | _ => true
  end.

(** [error instanceof ShippoApiError] *)
Definition instanceofShippoApiError (e : JsError) : bool :=
  match e with
  | ShippoApiError _ _ => true
  | _ => false
  end.

(** [error.message] *)
Definition errorMessage (e : JsError) : value :=
  match e with
  | AuthenticationError m => VString m
  | RateLimitError m _ => VString m
  | ShippoApiError m _ => m
  | OtherError _ m => VString m
  | ThrownValue _ => VUndefined
  end.

(** [error.statusCode], for the class that is tested for it. *)
Definition errorStatusCode (e : JsError) : option Z :=
  match e with
  | ShippoApiError _ code => Some code
  | _ => None
  end.

Inductive Outcome (A : Type) : Type :=
| Ok (a : A)
| Throw (e : JsError).
Arguments Ok {A} a.
Arguments Throw {A} e.

(** The element whose index is written [k], [undefined] without one. *)
Fixpoint indexProp (k : string) (items : list value) (i : Z) : value :=
  match items with
  | [] => VUndefined
  | x :: rest =>
      if String.eqb k (string_of_Z i) then x else indexProp k rest (i + 1)
  end.

(** The characters of a string, each as a string value. *)
Fixpoint chars (s : string) : list value :=
  match s with
  | EmptyString => []
  | String c rest => VString (String c EmptyString) :: chars rest
  end.

(** Property read [v.k] and [v[k]]: a [TypeError] on [undefined] and
    [null]; own properties only (no key the code reads is inherited). *)
Definition getProp (v : value) (k : string) : Outcome value :=
  match v with
  | VUndefined | VNull =>
      Throw (OtherError "TypeError"
               ("Cannot read properties of " ++ ToString v
                  ++ " (reading '" ++ k ++ "')"))
  | VObject props =>
      Ok (match lookup k props with Some x => x | None => VUndefined end)
  | VArray items =>
      Ok (if String.eqb k "length"
          then VNumber (Int (Z.of_nat (List.length items)))
          else indexProp k items 0)
  | VString s =>
      Ok (if String.eqb k "length"
          then VNumber (Int (Z.of_nat (String.length s)))
          else indexProp k (chars s) 0)
  | VBool _ | VNumber _ => Ok VUndefined
  end.

(** Optional chaining [v?.k]. *)
Definition getPropOpt (v : value) (k : string) : value :=
  match getProp v k with
  | Ok x => x
  | Throw _ => VUndefined
  end.

(* ================================================================= *)
(** ** HTTP as the client sees it *)

Record RequestInit : Type := mkRequestInit {
  method : option string;
  body : option string;
  headers : option (list (string * string))
}.

(** A response body: text that [JSON.parse] rejects, or text that it
    parses to the given value. *)
Inductive Body : Type :=
| NotJson (text : string)
| Json (v : value).

Record Response : Type := mkResponse {
  status : Z;
  responseHeaders : list (string * string);
  responseBody : Body
}.

(** [response.ok] *)
Definition ok (r : Response) : bool :=
  (200 <=? status r) && (status r <=? 299).

(** [headers.get(name)]: names compare without case, the values of a
    repeated header are combined, and an absent header gives [null]. *)
Definition Headers_get (hs : list (string * string)) (name : string)
  : option string :=
  match filter (fun kv => String.eqb (toLowerCase (fst kv)) (toLowerCase name)) hs with
  | [] => None
  | found => Some (join ", " (map snd found))
  end.

Inductive FetchResult : Type :=
| Responds (r : Response)
| Rejects (e : JsError).

(** The remote side: what [fetch(url, init)] settles to. *)
Definition Fetch : Type := string -> RequestInit -> FetchResult.

(** The log of outbound network calls, oldest first. *)
Definition NetLog : Type := list (string * RequestInit).

Definition networkCalls (log : NetLog) : nat := List.length log.

(** Computations: an awaited promise together with the network log. *)
Definition M (A : Type) : Type := NetLog -> Outcome A * NetLog.

Definition ret {A : Type} (a : A) : M A := fun log => (Ok a, log).

Definition throw {A : Type} (e : JsError) : M A := fun log => (Throw e, log).

Definition bind {A B : Type} (m : M A) (k : A -> M B) : M B :=
  fun log =>
    match m log with
    | (Ok a, log') => k a log'
    | (Throw e, log') => (Throw e, log')
    end.

(** [try { m } catch (error) { handler(error) }] *)
Definition tryCatch {A : Type} (m : M A) (handler : JsError -> M A) : M A :=
  fun log =>
    match m log with
    | (Ok a, log') => (Ok a, log')
    | (Throw e, log') => handler e log'
    end.

Definition lift {A : Type} (o : Outcome A) : M A := fun log => (o, log).

Declare Scope js_scope.
Delimit Scope js_scope with js.
Notation "x <- m ;; k" := (bind m (fun x => k))
  (at level 61, m at next level, right associativity) : js_scope.
Notation "m ;;; k" := (bind m (fun _ => k))
  (at level 61, right associativity) : js_scope.
Local Open Scope js_scope.

(* ================================================================= *)
(** ** Tenant credentials (types/env.ts) *)

Record TenantCredentials : Type := mkCredentials {
  apiKey : option string;
  baseUrl : option string
}.

(** [s || undefined] for a string or [null]. *)
Definition orUndefined (s : option string) : option string :=
  match s with
  | Some x => if isEmpty x then None else Some x
  | None => None
  end.

(** The argument is the header list of the inbound request. *)
Definition parseTenantCredentials (requestHeaders : list (string * string))
  : TenantCredentials :=
  {| apiKey := orUndefined (Headers_get requestHeaders "X-Shippo-API-Key");
     baseUrl := orUndefined (Headers_get requestHeaders "X-Shippo-Base-URL") |}.

Definition validateCredentials (credentials : TenantCredentials) : Outcome unit :=
  match orUndefined (apiKey credentials) with
  | None => Throw (OtherError "Error"
                     "Missing credentials. Provide X-Shippo-API-Key header.")
  | Some _ => Ok tt
  end.

(* ================================================================= *)
(** ** The Shippo client (client.ts) *)

Definition API_BASE_URL : string := "https://api.goshippo.com".

Record ShippoClientImpl : Type := mkClient {
  credentials : TenantCredentials;
  clientBaseUrl : string
}.

Definition createShippoClient (creds : TenantCredentials) : ShippoClientImpl :=
  {| credentials := creds;
     clientBaseUrl := match orUndefined (baseUrl creds) with
                      | Some url => url
                      | None => API_BASE_URL
                      end |}.

(** [{ Authorization: `ShippoToken ${key}`, 'Content-Type': ... }] *)
Definition authHeaders (key : string) : list (string * string) :=
  [("Authorization", "ShippoToken " ++ key);
   ("Content-Type", "application/json")].

Definition getAuthHeaders (this : ShippoClientImpl)
  : Outcome (list (string * string)) :=
  match orUndefined (apiKey (credentials this)) with
  | None =>
      Throw (AuthenticationError
               "No credentials provided. Include X-Shippo-API-Key header.")
  | Some key => Ok (authHeaders key)
  end.

(** [errorJson.detail || errorJson.message || errorJson.error || message] *)
Definition pickErrorMessage (errorJson : value) (message : value)
  : Outcome value :=
  match getProp errorJson "detail" with
  | Throw e => Throw e
  | Ok detail =>
      if truthy detail then Ok detail
      else
        match getProp errorJson "message" with
        | Throw e => Throw e
        | Ok msg =>
            if truthy msg then Ok msg
            else
              match getProp errorJson "error" with
              | Throw e => Throw e
              | Ok err => Ok (or_else err message)
              end
        end
  end.

(** [retryAfter ? Number.parseInt(retryAfter, 10) : 60] *)
Definition retryAfterSecondsOf (retryAfter : option string) : number :=
  match orUndefined retryAfter with
  | Some text => Number_parseInt10 text
  | None => Int 60
  end.

(** [response.json()] *)
Definition Response_json (r : Response) : M value :=
  match responseBody r with
  | Json v => ret v
  | NotJson _ => throw (OtherError "SyntaxError" "Unexpected token in JSON")
  end.

(** [{ ...options, headers: { ...auth, ...(options.headers || {}) } }] *)
Definition withHeaders (auth : list (string * string)) (options : RequestInit)
  : RequestInit :=
  {| method := method options;
     body := body options;
     headers := Some (objSpread auth
                        (match headers options with
                         | Some h => h
                         | None => []
                         end)) |}.

Definition noOptions : RequestInit :=
  {| method := None; body := None; headers := None |}.

Section WithFetch.

Variable fetch : Fetch.

(** [await fetch(url, init)]: one more entry in the network log. *)
Definition doFetch (url : string) (init : RequestInit) : M Response :=
  fun log =>
    match fetch url init with
    | Responds r => (Ok r, (log ++ [(url, init)])%list)
    | Rejects e => (Throw e, (log ++ [(url, init)])%list)
    end.

Definition request (this : ShippoClientImpl) (endpoint : string)
    (options : RequestInit) : M value :=
  let url := clientBaseUrl this ++ endpoint in
  auth <- lift (getAuthHeaders this);;
  response <- doFetch url (withHeaders auth options);;
  if status response =? 429 then
    let retryAfter := Headers_get (responseHeaders response) "Retry-After" in
    throw (RateLimitError "Rate limit exceeded" (retryAfterSecondsOf retryAfter))
  else if (status response =? 401) || (status response =? 403) then
    throw (AuthenticationError "Authentication failed. Check your Shippo API key.")
  else if negb (ok response) then
    let message := VString ("API error: " ++ string_of_Z (status response)) in
    let message :=
      match responseBody response with
      | Json errorJson =>
          match pickErrorMessage errorJson message with
          | Ok m => m
          | Throw _ => message
          end
      | NotJson _ => message
      end in
    throw (ShippoApiError message (status response))
  else if status response =? 204 then ret VUndefined
  else Response_json response.

Definition buildQueryString (params : option object) : string :=
  match params with
  | None => EmptyString
  | Some entries =>
      let query :=
        fold_left (fun (q : URLSearchParams) (kv : string * value) =>
                     match snd kv with
                     | VUndefined | VNull => q
                     | v => URLSearchParams_set (fst kv) (ToString v) q
                     end) entries [] in
      let str := URLSearchParams_toString query in
      if isEmpty str then EmptyString else "?" ++ str
  end.

(** [this.request(endpoint, { method, body: JSON.stringify(input) })] *)
Definition send (this : ShippoClientImpl) (verb endpoint : string)
    (input : value) : M value :=
  request this endpoint
    {| method := Some verb; body := JSON_stringify input; headers := None |}.

(** [this.request(endpoint, { method })] *)
Definition sendEmpty (this : ShippoClientImpl) (verb endpoint : string)
  : M value :=
  request this endpoint {| method := Some verb; body := None; headers := None |}.

(** *** Connection *)

Definition testConnection (this : ShippoClientImpl) : M value :=
  tryCatch
    (request this "/addresses?results=1" noOptions;;;
     ret (VObject [("connected", VBool true);
                   ("message", VString "Successfully connected to Shippo API")]))
    (fun error =>
       ret (VObject [("connected", VBool false);
                     ("message", if instanceofError error
                                 then errorMessage error
                                 else VString "Connection failed")])).

(** *** Addresses, parcels, shipments, rates *)

Definition listAddresses this (params : option object) : M value :=
  request this ("/addresses" ++ buildQueryString params) noOptions.
Definition getAddress this (id : string) : M value :=
  request this ("/addresses/" ++ id) noOptions.
Definition createAddress this (input : value) : M value :=
  send this "POST" "/addresses" input.
Definition validateAddress this (id : string) : M value :=
  request this ("/addresses/" ++ id ++ "/validate") noOptions.

Definition listParcels this (params : option object) : M value :=
  request this ("/parcels" ++ buildQueryString params) noOptions.
Definition getParcel this (id : string) : M value :=
  request this ("/parcels/" ++ id) noOptions.
Definition createParcel this (input : value) : M value :=
  send this "POST" "/parcels" input.

Definition listShipments this (params : option object) : M value :=
  request this ("/shipments" ++ buildQueryString params) noOptions.
Definition getShipment this (id : string) : M value :=
  request this ("/shipments/" ++ id) noOptions.
Definition createShipment this (input : value) : M value :=
  send this "POST" "/shipments" input.

Definition getRate this (id : string) : M value :=
  request this ("/rates/" ++ id) noOptions.
Definition listShipmentRates this (shipmentId : string)
    (currency : option string) : M value :=
  let endpoint :=
    match orUndefined currency with
    | Some cur => "/shipments/" ++ shipmentId ++ "/rates/" ++ cur
    | None => "/shipments/" ++ shipmentId ++ "/rates"
    end in
  request this endpoint noOptions.

(** *** Transactions, tracking, refunds, carrier accounts *)

Definition listTransactions this (params : option object) : M value :=
  request this ("/transactions" ++ buildQueryString params) noOptions.
Definition getTransaction this (id : string) : M value :=
  request this ("/transactions/" ++ id) noOptions.
Definition createTransaction this (input : value) : M value :=
  send this "POST" "/transactions" input.
Definition createInstantTransaction this (input : value) : M value :=
  send this "POST" "/transactions" input.

Definition getTrackingStatus this (carrier trackingNumber : string) : M value :=
  request this ("/tracks/" ++ carrier ++ "/" ++ trackingNumber) noOptions.
Definition registerTrackingWebhook this (input : value) : M value :=
  send this "POST" "/tracks" input.

Definition createRefund this (input : value) : M value :=
  send this "POST" "/refunds" input.
Definition getRefund this (id : string) : M value :=
  request this ("/refunds/" ++ id) noOptions.

Definition listCarrierAccounts this (params : option object) : M value :=
  request this ("/carrier_accounts" ++ buildQueryString params) noOptions.
Definition getCarrierAccount this (id : string) : M value :=
  request this ("/carrier_accounts/" ++ id) noOptions.
Definition createCarrierAccount this (input : value) : M value :=
  send this "POST" "/carrier_accounts" input.
Definition updateCarrierAccount this (id : string) (input : value) : M value :=
  send this "PUT" ("/carrier_accounts/" ++ id) input.

(** *** Customs, manifests, batches, pickups, orders *)

Definition listCustomsItems this (params : option object) : M value :=
  request this ("/customs/items" ++ buildQueryString params) noOptions.
Definition getCustomsItem this (id : string) : M value :=
  request this ("/customs/items/" ++ id) noOptions.
Definition createCustomsItem this (input : value) : M value :=
  send this "POST" "/customs/items" input.

Definition listCustomsDeclarations this (params : option object) : M value :=
  request this ("/customs/declarations" ++ buildQueryString params) noOptions.
Definition getCustomsDeclaration this (id : string) : M value :=
  request this ("/customs/declarations/" ++ id) noOptions.
Definition createCustomsDeclaration this (input : value) : M value :=
  send this "POST" "/customs/declarations" input.

Definition listManifests this (params : option object) : M value :=
  request this ("/manifests" ++ buildQueryString params) noOptions.
Definition getManifest this (id : string) : M value :=
  request this ("/manifests/" ++ id) noOptions.
Definition createManifest this (input : value) : M value :=
  send this "POST" "/manifests" input.

Definition getBatch this (id : string) : M value :=
  request this ("/batches/" ++ id) noOptions.
Definition createBatch this (input : value) : M value :=
  send this "POST" "/batches" input.
Definition addShipmentsToBatch this (batchId : string) (input : value) : M value :=
  send this "POST" ("/batches/" ++ batchId ++ "/add_shipments") input.
Definition removeShipmentsFromBatch this (batchId : string) (input : value)
  : M value :=
  send this "POST" ("/batches/" ++ batchId ++ "/remove_shipments") input.
Definition purchaseBatch this (batchId : string) : M value :=
  sendEmpty this "POST" ("/batches/" ++ batchId ++ "/purchase").

Definition createPickup this (input : value) : M value :=
  send this "POST" "/pickups" input.

Definition listOrders this (params : option object) : M value :=
  request this ("/orders" ++ buildQueryString params) noOptions.
Definition getOrder this (id : string) : M value :=
  request this ("/orders/" ++ id) noOptions.
Definition createOrder this (input : value) : M value :=
  send this "POST" "/orders" input.

(** *** Service groups and parcel templates *)

Definition listServiceGroups this : M value :=
  request this "/service-groups" noOptions.
Definition createServiceGroup this (input : value) : M value :=
  send this "POST" "/service-groups" input.
Definition updateServiceGroup this (input : value) : M value :=
  send this "PUT" "/service-groups" input.
Definition deleteServiceGroup this (id : string) : M value :=
  sendEmpty this "DELETE" ("/service-groups/" ++ id);;; ret VUndefined.

Definition listCarrierParcelTemplates this (params : option object) : M value :=
  request this ("/parcel-templates" ++ buildQueryString params) noOptions.
Definition getCarrierParcelTemplate this (token : string) : M value :=
  request this ("/parcel-templates/" ++ token) noOptions.

Definition listUserParcelTemplates this (params : option object) : M value :=
  request this ("/user-parcel-templates" ++ buildQueryString params) noOptions.
Definition getUserParcelTemplate this (id : string) : M value :=
  request this ("/user-parcel-templates/" ++ id) noOptions.
Definition createUserParcelTemplate this (input : value) : M value :=
  send this "POST" "/user-parcel-templates" input.
Definition deleteUserParcelTemplate this (id : string) : M value :=
  sendEmpty this "DELETE" ("/user-parcel-templates/" ++ id);;; ret VUndefined.

(** *** Live rates *)

Definition createLiveRate this (input : value) : M value :=
  response <- send this "POST" "/live-rates" input;;
  lift (getProp response "results").

Definition getDefaultParcelTemplate this : M value :=
  tryCatch
    (request this "/live-rates/settings/parcel-template" noOptions)
    (fun error =>
       if instanceofShippoApiError error
          && match errorStatusCode error with
             | Some code => code =? 404
             | None => false
             end
       then ret VNull
       else throw error).

Definition updateDefaultParcelTemplate this (input : value) : M value :=
  send this "PUT" "/live-rates/settings/parcel-template" input.
Definition deleteDefaultParcelTemplate this : M value :=
  sendEmpty this "DELETE" "/live-rates/settings/parcel-template";;;
  ret VUndefined.

(** *** The ShippoClient interface: one constructor per method *)

Inductive ClientCall : Type :=
| CallTestConnection
| CallListAddresses (params : option object)
| CallGetAddress (id : string)
| CallCreateAddress (input : value)
| CallValidateAddress (id : string)
| CallListParcels (params : option object)
| CallGetParcel (id : string)
| CallCreateParcel (input : value)
| CallListShipments (params : option object)
| CallGetShipment (id : string)
| CallCreateShipment (input : value)
| CallGetRate (id : string)
| CallListShipmentRates (shipmentId : string) (currency : option string)
| CallListTransactions (params : option object)
| CallGetTransaction (id : string)
| CallCreateTransaction (input : value)
| CallCreateInstantTransaction (input : value)
| CallGetTrackingStatus (carrier trackingNumber : string)
| CallRegisterTrackingWebhook (input : value)
| CallCreateRefund (input : value)
| CallGetRefund (id : string)
| CallListCarrierAccounts (params : option object)
| CallGetCarrierAccount (id : string)
| CallCreateCarrierAccount (input : value)
| CallUpdateCarrierAccount (id : string) (input : value)
| CallListCustomsItems (params : option object)
| CallGetCustomsItem (id : string)
| CallCreateCustomsItem (input : value)
| CallListCustomsDeclarations (params : option object)
| CallGetCustomsDeclaration (id : string)
| CallCreateCustomsDeclaration (input : value)
| CallListManifests (params : option object)
| CallGetManifest (id : string)
| CallCreateManifest (input : value)
| CallGetBatch (id : string)
| CallCreateBatch (input : value)
| CallAddShipmentsToBatch (batchId : string) (input : value)
| CallRemoveShipmentsFromBatch (batchId : string) (input : value)
| CallPurchaseBatch (batchId : string)
| CallCreatePickup (input : value)
| CallListOrders (params : option object)
| CallGetOrder (id : string)
| CallCreateOrder (input : value)
| CallListServiceGroups
| CallCreateServiceGroup (input : value)
| CallUpdateServiceGroup (input : value)
| CallDeleteServiceGroup (id : string)
| CallListCarrierParcelTemplates (params : option object)
| CallGetCarrierParcelTemplate (token : string)
| CallListUserParcelTemplates (params : option object)
| CallGetUserParcelTemplate (id : string)
| CallCreateUserParcelTemplate (input : value)
| CallDeleteUserParcelTemplate (id : string)
| CallCreateLiveRate (input : value)
| CallGetDefaultParcelTemplate
| CallUpdateDefaultParcelTemplate (input : value)
| CallDeleteDefaultParcelTemplate.

(** [client.method(arguments)] *)
Definition invoke (this : ShippoClientImpl) (call : ClientCall) : M value :=
  match call with
  | CallTestConnection => testConnection this
  | CallListAddresses params => listAddresses this params
  | CallGetAddress id => getAddress this id
  | CallCreateAddress input => createAddress this input
  | CallValidateAddress id => validateAddress this id
  | CallListParcels params => listParcels this params
  | CallGetParcel id => getParcel this id
  | CallCreateParcel input => createParcel this input
  | CallListShipments params => listShipments this params
  | CallGetShipment id => getShipment this id
  | CallCreateShipment input => createShipment this input
  | CallGetRate id => getRate this id
  | CallListShipmentRates shipmentId currency =>
      listShipmentRates this shipmentId currency
  | CallListTransactions params => listTransactions this params
  | CallGetTransaction id => getTransaction this id
  | CallCreateTransaction input => createTransaction this input
  | CallCreateInstantTransaction input => createInstantTransaction this input
  | CallGetTrackingStatus carrier trackingNumber =>
      getTrackingStatus this carrier trackingNumber
  | CallRegisterTrackingWebhook input => registerTrackingWebhook this input
  | CallCreateRefund input => createRefund this input
  | CallGetRefund id => getRefund this id
  | CallListCarrierAccounts params => listCarrierAccounts this params
  | CallGetCarrierAccount id => getCarrierAccount this id
  | CallCreateCarrierAccount input => createCarrierAccount this input
  | CallUpdateCarrierAccount id input => updateCarrierAccount this id input
  | CallListCustomsItems params => listCustomsItems this params
  | CallGetCustomsItem id => getCustomsItem this id
  | CallCreateCustomsItem input => createCustomsItem this input
  | CallListCustomsDeclarations params => listCustomsDeclarations this params
  | CallGetCustomsDeclaration id => getCustomsDeclaration this id
  | CallCreateCustomsDeclaration input => createCustomsDeclaration this input
  | CallListManifests params => listManifests this params
  | CallGetManifest id => getManifest this id
  | CallCreateManifest input => createManifest this input
  | CallGetBatch id => getBatch this id
  | CallCreateBatch input => createBatch this input
  | CallAddShipmentsToBatch batchId input => addShipmentsToBatch this batchId input
  | CallRemoveShipmentsFromBatch batchId input =>
      removeShipmentsFromBatch this batchId input
  | CallPurchaseBatch batchId => purchaseBatch this batchId
  | CallCreatePickup input => createPickup this input
  | CallListOrders params => listOrders this params
  | CallGetOrder id => getOrder this id
  | CallCreateOrder input => createOrder this input
  | CallListServiceGroups => listServiceGroups this
  | CallCreateServiceGroup input => createServiceGroup this input
  | CallUpdateServiceGroup input => updateServiceGroup this input
  | CallDeleteServiceGroup id => deleteServiceGroup this id
  | CallListCarrierParcelTemplates params => listCarrierParcelTemplates this params
  | CallGetCarrierParcelTemplate token => getCarrierParcelTemplate this token
  | CallListUserParcelTemplates params => listUserParcelTemplates this params
  | CallGetUserParcelTemplate id => getUserParcelTemplate this id
  | CallCreateUserParcelTemplate input => createUserParcelTemplate this input
  | CallDeleteUserParcelTemplate id => deleteUserParcelTemplate this id
  | CallCreateLiveRate input => createLiveRate this input
  | CallGetDefaultParcelTemplate => getDefaultParcelTemplate this
  | CallUpdateDefaultParcelTemplate input => updateDefaultParcelTemplate this input
  | CallDeleteDefaultParcelTemplate => deleteDefaultParcelTemplate this
  end.

End WithFetch.

(* ================================================================= *)
(** ** Response formatting (utils/formatters.ts) *)

Definition obind {A B : Type} (o : Outcome A) (k : A -> Outcome B) : Outcome B :=
  match o with
  | Ok a => k a
  | Throw e => Throw e
  end.

Notation "x <~ o ;; k" := (obind o (fun x => k))
  (at level 61, o at next level, right associativity) : js_scope.

(** A [for ... of] loop that pushes one result per element. *)
Fixpoint forEach {A B : Type} (f : A -> Outcome B) (xs : list A)
  : Outcome (list B) :=
  match xs with
  | [] => Ok []
  | x :: rest =>
      y <~ f x;;
      ys <~ forEach f rest;;
      Ok (y :: ys)
  end.

(** [String(v)], also what a template literal applies to a hole.  An
    object converts through its toString property: the inherited one
    gives the fixed text, while a property of its own named toString
    (never a function in a value that was parsed from JSON) makes the
    conversion throw.  An array joins the conversions of its elements,
    in order, with the empty text for [null] and [undefined]. *)
Fixpoint String_of (v : value) : Outcome string :=
  match v with
  | VArray items =>
      parts <~ (fix each (xs : list value) : Outcome (list string) :=
                  match xs with
                  | [] => Ok []
                  | x :: rest =>
                      s <~ match x with
                           | VUndefined | VNull => Ok EmptyString
                           | _ => String_of x
                           end;;
                      ss <~ each rest;;
                      Ok (s :: ss)
                  end) items;;
      Ok (join "," parts)
  | VObject props =>
      match lookup "toString" props with
      | Some _ =>
          Throw (OtherError "TypeError" "Cannot convert object to primitive value")
      | None => Ok "[object Object]"
      end
  | _ => Ok (ToString v)
  end.

(** A chain of property reads [v.a.b]. *)
Fixpoint path (v : value) (keys : list string) : Outcome value :=
  match keys with
  | [] => Ok v
  | k :: rest => x <~ getProp v k;; path x rest
  end.

(** The text a template literal gives for the hole [${v.a.b}]. *)
Definition hole (v : value) (keys : list string) : Outcome string :=
  x <~ path v keys;; String_of x.

(** The hole [${v.a.b || fallback}]. *)
Definition holeOr (v : value) (keys : list string) (fallback : string)
  : Outcome string :=
  x <~ path v keys;; String_of (or_else x (VString fallback)).

(** The hole [${v.a ? 'Yes' : 'No'}]. *)
Definition holeYesNo (v : value) (key : string) : Outcome string :=
  x <~ getProp v key;; Ok (if truthy x then "Yes" else "No").

(** A template literal: its pieces are evaluated from left to right. *)
Fixpoint template (pieces : list (Outcome string)) : Outcome string :=
  match pieces with
  | [] => Ok EmptyString
  | p :: rest =>
      s <~ p;;
      t <~ template rest;;
      Ok (s ++ t)
  end.

Definition lit (s : string) : Outcome string := Ok s.

Record TextContent : Type := mkText {
  type : string;
  text : option string
}.

Record ToolResponse : Type := mkToolResponse {
  content : list TextContent;
  isError : option bool
}.

Definition capitalize (str : string) : string :=
  match str with
  | EmptyString => EmptyString
  | String c rest => String (toUpperCaseChar c) rest
  end.

(** A table: the two heading lines, then one line per row. *)
Definition table (heading separator : string) (row : value -> Outcome string)
    (rows : list value) : Outcome string :=
  lines <~ forEach row rows;;
  Ok (join newline (heading :: separator :: lines)).

Definition formatAddressesTable (addresses : list value) : Outcome string :=
  table "| ID | Name | Address | City | State | ZIP | Country |"
        "|---|---|---|---|---|---|---|"
    (fun addr =>
       template [lit "| "; hole addr ["object_id"]; lit " | ";
                 hole addr ["name"]; lit " | "; hole addr ["street1"];
                 lit " | "; hole addr ["city"]; lit " | ";
                 hole addr ["state"]; lit " | "; hole addr ["zip"];
                 lit " | "; hole addr ["country"]; lit " |"])
    addresses.

(** [`${x.length}x${x.width}x${x.height} ${x.distance_unit}`] *)
Definition dimensions (x : value) : Outcome string :=
  template [hole x ["length"]; lit "x"; hole x ["width"]; lit "x";
            hole x ["height"]; lit " "; hole x ["distance_unit"]].

Definition formatParcelsTable (parcels : list value) : Outcome string :=
  table "| ID | Dimensions (LxWxH) | Weight | Template |" "|---|---|---|---|"
    (fun parcel =>
       dims <~ dimensions parcel;;
       weight <~ template [hole parcel ["weight"]; lit " ";
                           hole parcel ["mass_unit"]];;
       template [lit "| "; hole parcel ["object_id"]; lit " | "; lit dims;
                 lit " | "; lit weight; lit " | ";
                 holeOr parcel ["template"] "-"; lit " |"])
    parcels.

Definition formatShipmentsTable (shipments : list value) : Outcome string :=
  table "| ID | Status | From | To | Parcels | Rates |" "|---|---|---|---|---|---|"
    (fun shipment =>
       from <~ template [hole shipment ["address_from"; "city"]; lit ", ";
                         hole shipment ["address_from"; "state"]];;
       to <~ template [hole shipment ["address_to"; "city"]; lit ", ";
                       hole shipment ["address_to"; "state"]];;
       template [lit "| "; hole shipment ["object_id"]; lit " | ";
                 hole shipment ["status"]; lit " | "; lit from; lit " | ";
                 lit to; lit " | "; hole shipment ["parcels"; "length"];
                 lit " | "; hole shipment ["rates"; "length"]; lit " |"])
    shipments.

Definition formatRatesTable (rates : list value) : Outcome string :=
  table "| ID | Provider | Service | Amount | Est. Days |" "|---|---|---|---|---|"
    (fun rate =>
       template [lit "| "; hole rate ["object_id"]; lit " | ";
                 hole rate ["provider"]; lit " | ";
                 hole rate ["servicelevel"; "name"]; lit " | ";
                 hole rate ["currency"]; lit " "; hole rate ["amount"];
                 lit " | "; holeOr rate ["estimated_days"] "-"; lit " |"])
    rates.

Definition formatTransactionsTable (transactions : list value) : Outcome string :=
  table "| ID | Status | Tracking # | Tracking Status |" "|---|---|---|---|"
    (fun tx =>
       template [lit "| "; hole tx ["object_id"]; lit " | ";
                 hole tx ["status"]; lit " | ";
                 holeOr tx ["tracking_number"] "-"; lit " | ";
                 hole tx ["tracking_status"]; lit " |"])
    transactions.

Definition formatCarrierAccountsTable (accounts : list value) : Outcome string :=
  table "| ID | Carrier | Account ID | Active |" "|---|---|---|---|"
    (fun acc =>
       template [lit "| "; hole acc ["object_id"]; lit " | ";
                 hole acc ["carrier"]; lit " | "; hole acc ["account_id"];
                 lit " | "; holeYesNo acc "active"; lit " |"])
    accounts.

Definition formatCustomsItemsTable (items : list value) : Outcome string :=
  table "| ID | Description | Qty | Value | Origin |" "|---|---|---|---|---|"
    (fun item =>
       template [lit "| "; hole item ["object_id"]; lit " | ";
                 hole item ["description"]; lit " | ";
                 hole item ["quantity"]; lit " | ";
                 hole item ["value_currency"]; lit " ";
                 hole item ["value_amount"]; lit " | ";
                 hole item ["origin_country"]; lit " |"])
    items.

Definition formatCustomsDeclarationsTable (declarations : list value)
  : Outcome string :=
  table "| ID | Contents Type | Items | Certify |" "|---|---|---|---|"
    (fun decl =>
       template [lit "| "; hole decl ["object_id"]; lit " | ";
                 hole decl ["contents_type"]; lit " | ";
                 hole decl ["items"; "length"]; lit " | ";
                 holeYesNo decl "certify"; lit " |"])
    declarations.

Definition formatManifestsTable (manifests : list value) : Outcome string :=
  table "| ID | Status | Shipment Date | Transactions |" "|---|---|---|---|"
    (fun manifest =>
       template [lit "| "; hole manifest ["object_id"]; lit " | ";
                 hole manifest ["status"]; lit " | ";
                 hole manifest ["shipment_date"]; lit " | ";
                 hole manifest ["transactions"; "length"]; lit " |"])
    manifests.

Definition formatOrdersTable (orders : list value) : Outcome string :=
  table "| ID | Order # | Status | Total | Items |" "|---|---|---|---|---|"
    (fun order =>
       template [lit "| "; hole order ["object_id"]; lit " | ";
                 hole order ["order_number"]; lit " | ";
                 hole order ["order_status"]; lit " | ";
                 holeOr order ["currency"] EmptyString; lit " ";
                 holeOr order ["total_price"] "-"; lit " | ";
                 hole order ["line_items"; "length"]; lit " |"])
    orders.

Definition formatServiceGroupsTable (groups : list value) : Outcome string :=
  table "| ID | Name | Type | Active | Services |" "|---|---|---|---|---|"
    (fun group =>
       template [lit "| "; hole group ["object_id"]; lit " | ";
                 hole group ["name"]; lit " | "; hole group ["type"];
                 lit " | "; holeYesNo group "is_active"; lit " | ";
                 hole group ["service_levels"; "length"]; lit " |"])
    groups.

Definition formatCarrierParcelTemplatesTable (templates : list value)
  : Outcome string :=
  table "| Token | Carrier | Name | Dimensions |" "|---|---|---|---|"
    (fun tmpl =>
       dims <~ dimensions tmpl;;
       template [lit "| "; hole tmpl ["token"]; lit " | ";
                 hole tmpl ["carrier"]; lit " | "; hole tmpl ["name"];
                 lit " | "; lit dims; lit " |"])
    templates.

Definition formatUserParcelTemplatesTable (templates : list value)
  : Outcome string :=
  table "| ID | Name | Dimensions | Weight |" "|---|---|---|---|"
    (fun tmpl =>
       dims <~ dimensions tmpl;;
       w <~ getProp tmpl "weight";;
       weight <~ (if truthy w
                  then template [hole tmpl ["weight"]; lit " ";
                                 hole tmpl ["weight_unit"]]
                  else Ok "-");;
       template [lit "| "; hole tmpl ["object_id"]; lit " | ";
                 hole tmpl ["name"]; lit " | "; lit dims; lit " | ";
                 lit weight; lit " |"])
    templates.

(** [Object.keys(v)] *)
Definition Object_keys (v : value) : Outcome (list string) :=
  let indices (n : nat) := map (fun i => string_of_Z (Z.of_nat i)) (seq 0 n) in
  match v with
  | VUndefined | VNull =>
      Throw (OtherError "TypeError" "Cannot convert undefined or null to object")
  | VObject props => Ok (map fst props)
  | VArray items => Ok (indices (List.length items))
  | VString s => Ok (indices (String.length s))
  | VBool _ | VNumber _ => Ok []
  end.

(** The columns are the first five keys of the first row; each cell is
    [String(record[k] ?? '-')].  A key that a row does not have reads
    as [undefined] here; where the row inherits a member of that name
    (constructor, valueOf, ...) the code prints the member's text, which
    is not modelled. *)
Definition formatGenericTable (items : list value) : Outcome string :=
  match items with
  | [] => Ok "_No items_"
  | first :: _ =>
      allKeys <~ Object_keys first;;
      let keys := firstn 5 allKeys in
      rows <~ forEach (fun record =>
                values <~ forEach (fun k =>
                            x <~ getProp record k;;
                            String_of (nullish_else x (VString "-"))) keys;;
                Ok ("| " ++ join " | " values ++ " |")) items;;
      Ok (join newline
            (("| " ++ join " | " keys ++ " |")
               :: ("|" ++ join "|" (map (fun _ => "---") keys) ++ "|")
               :: rows))
  end.

Definition formatTrackingHistoryAsMarkdown (events : list value) : Outcome string :=
  groups <~ forEach (fun event =>
              let field (k fallback : string) : Outcome string :=
                ts <~ getProp event "tracking_status";;
                String_of (or_else (getPropOpt ts k) (VString fallback)) in
              st <~ field "status" "Unknown";;
              date <~ field "status_date" "-";;
              details <~ field "status_details" "-";;
              Ok ["### " ++ st; "**Date:** " ++ date;
                  "**Details:** " ++ details; EmptyString]) events;;
  Ok (join newline (List.concat groups)).

Definition formatArrayAsMarkdown (data : list value) (entityType : string)
  : Outcome string :=
  if String.eqb entityType "rates" then formatRatesTable data
  else if String.eqb entityType "tracking_history"
  then formatTrackingHistoryAsMarkdown data
  else formatGenericTable data.

(** [key.split('_')] *)
Fixpoint splitOn (sep : ascii) (s : string) : list string :=
  match s with
  | EmptyString => [EmptyString]
  | String c rest =>
      if Ascii.eqb c sep then EmptyString :: splitOn sep rest
      else
        match splitOn sep rest with
        | [] => [String c EmptyString]
        | word :: words => String c word :: words
        end
  end.

Definition formatKey (key : string) : string :=
  join " " (map capitalize (splitOn "_" key)).

(** [str.replace(/s$/, '')] *)
Fixpoint dropFinalS (str : string) : string :=
  match str with
  | EmptyString => EmptyString
  | String c EmptyString => if Ascii.eqb c "s" then EmptyString else str
  | String c rest => String c (dropFinalS rest)
  end.

Definition formatObjectAsMarkdown (data : object) (entityType : string) : string :=
  join newline
    (("## " ++ capitalize (dropFinalS entityType))
       :: EmptyString
       :: flat_map (fun kv =>
            let '(key, v) := kv in
            match v with
            | VUndefined | VNull => []
            | VObject _ | VArray _ =>
                ["**" ++ formatKey key ++ ":**";
                 "```json";
                 match JSON_stringify_2 v with
                 | Some s => s
                 | None => EmptyString
                 end;
                 "```"]
            | _ => ["**" ++ formatKey key ++ ":** " ++ ToString v]
            end) data).

(** The envelope of a list endpoint, as the type guard narrows it. *)
Record PaginatedResponse : Type := mkPaginated {
  count : value;
  next : value;
  previous : value;
  results : list value
}.

(** The type guard; on success it gives the narrowed view of [data]. *)
Definition isPaginatedResponse (data : value) : option PaginatedResponse :=
  match data with
  | VObject props =>
      match lookup "results" props with
      | Some (VArray items) =>
          Some {| count := getPropOpt data "count";
                  next := getPropOpt data "next";
                  previous := getPropOpt data "previous";
                  results := items |}
      | _ => None
      end
  | _ => None
  end.

(** The [switch (entityType)] of formatPaginatedAsMarkdown. *)
Definition entityTable (entityType : string) : list value -> Outcome string :=
  if String.eqb entityType "addresses" then formatAddressesTable
  else if String.eqb entityType "parcels" then formatParcelsTable
  else if String.eqb entityType "shipments" then formatShipmentsTable
  else if String.eqb entityType "rates" then formatRatesTable
  else if String.eqb entityType "transactions" then formatTransactionsTable
  else if String.eqb entityType "carrier_accounts" then formatCarrierAccountsTable
  else if String.eqb entityType "customs_items" then formatCustomsItemsTable
  else if String.eqb entityType "customs_declarations"
  then formatCustomsDeclarationsTable
  else if String.eqb entityType "manifests" then formatManifestsTable
  else if String.eqb entityType "orders" then formatOrdersTable
  else if String.eqb entityType "service_groups" then formatServiceGroupsTable
  else if String.eqb entityType "carrier_parcel_templates"
  then formatCarrierParcelTemplatesTable
  else if String.eqb entityType "user_parcel_templates"
  then formatUserParcelTemplatesTable
  else formatGenericTable.

(** The lines pushed before the results are looked at; the count is
    converted to text here. *)
Definition paginatedHeader (data : PaginatedResponse) (entityType : string)
  : Outcome (list string) :=
  total <~ String_of (count data);;
  Ok ([("## " ++ capitalize entityType)%string;
       EmptyString;
       ("**Total:** " ++ total ++ " | **Showing:** "
          ++ string_of_Z (Z.of_nat (List.length (results data))))%string]
        ++ (if truthy (next data) then ["**Next page available**"] else [])
        ++ [EmptyString])%list.

(** formatPaginatedAsMarkdown, over the dispatch of its [switch]. *)
Definition formatPaginatedWith
    (tableFor : string -> list value -> Outcome string)
    (data : PaginatedResponse) (entityType : string) : Outcome string :=
  lines <~ paginatedHeader data entityType;;
  if (List.length (results data) =? 0)%nat then
    Ok (join newline (lines ++ ["_No items found._"]))
  else
    tbl <~ tableFor entityType (results data);;
    Ok (join newline (lines ++ [tbl])).

Definition formatPaginatedAsMarkdown (data : PaginatedResponse)
    (entityType : string) : Outcome string :=
  formatPaginatedWith entityTable data entityType.

Definition formatAsMarkdown (data : value) (entityType : string) : Outcome string :=
  match isPaginatedResponse data with
  | Some page => formatPaginatedAsMarkdown page entityType
  | None =>
      match data with
      | VArray items => formatArrayAsMarkdown items entityType
      | VObject props => Ok (formatObjectAsMarkdown props entityType)
      | _ => Ok (ToString data)
      end
  end.

Definition textResponse (t : option string) : ToolResponse :=
  {| content := [{| type := "text"; text := t |}]; isError := None |}.

Definition formatResponse (data : value) (format entityType : string)
  : Outcome ToolResponse :=
  if String.eqb format "markdown" then
    md <~ formatAsMarkdown data entityType;;
    Ok (textResponse (Some md))
  else Ok (textResponse (JSON_stringify_2 data)).

(** [String(error)]: for an [Error] instance its name, a colon and its
    message, the class name standing for the name. *)
Definition String_error (e : JsError) : string :=
  match e with
  | AuthenticationError m => "AuthenticationError: " ++ m
  | RateLimitError m _ => "RateLimitError: " ++ m
  | ShippoApiError m _ => "ShippoApiError: " ++ ToString m
  | OtherError name m => name ++ ": " ++ m
  | ThrownValue v => ToString v
  end.

Section WithErrorsModule.

(** The two members of utils/errors.ts that formatters.ts reads and
    whose code is not among the sources: the function that renders an
    error for the [details] field, and the [retryable] flag of a
    [ShippoApiError]. *)
Variable formatErrorForLogging : JsError -> value.
Variable retryable : JsError -> bool.

Definition formatError (error : JsError) : ToolResponse :=
  let errorInfo := formatErrorForLogging error in
  let message :=
    if instanceofShippoApiError error then
      "Error: " ++ ToString (errorMessage error)
        ++ (if retryable error then " (retryable)" else EmptyString)
    else if instanceofError error then
      "Error: " ++ ToString (errorMessage error)
    else "Error: " ++ String_error error in
  {| content :=
       [{| type := "text";
           text := JSON_stringify_2
                     (VObject [("error", VString message);
                               ("details", errorInfo)]) |}];
     isError := Some true |}.

End WithErrorsModule.

(* ================================================================= *)
(** ** Tool handlers (tools/*.ts, index.ts) *)

(** A registered tool.  Every handler is
    [try { const r = await client.method(...); <render r> }
     catch (error) { <onError error> }];
    [clientCall] builds the method call from the arguments (inside the
    [try]), [render] is the rest of the [try] block and [onError] the
    [catch] block. *)
Record Tool : Type := mkTool {
  toolName : string;
  clientCall : object -> Outcome ClientCall;
  render : object -> value -> Outcome ToolResponse;
  onError : JsError -> ToolResponse
}.

(** A destructured argument of the handler. *)
Definition arg (args : object) (k : string) : value :=
  match lookup k args with
  | Some v => v
  | None => VUndefined
  end.

(** An argument that the schema types as a string. *)
Definition stringArg (args : object) (k : string) : string :=
  match arg args k with
  | VString s => s
  | _ => EmptyString
  end.

Definition optionalStringArg (args : object) (k : string) : option string :=
  match arg args k with
  | VString s => Some s
  | _ => None
  end.

(** An object literal that copies the listed arguments:
    [{ a, b }] and [{ a: input.a, b: input.b }]. *)
Definition pick (input : object) (keys : list string) : object :=
  map (fun k => (k, arg input k)) keys.

(** [{ results, page }] *)
Definition pagination (args : object) : option object :=
  Some (pick args ["results"; "page"]).

(** [{ id, ...input }]: the arguments without [id]. *)
Definition withoutId (args : object) : object :=
  filter (fun kv => negb (String.eqb (fst kv) "id")) args.

(** [{ content: [{ type: 'text', text: JSON.stringify(o, null, 2) }] }] *)
Definition jsonResponse (o : object) : ToolResponse :=
  textResponse (JSON_stringify_2 (VObject o)).

(** [v.map(f)] *)
Definition Array_map (v : value) (f : value -> Outcome value) : Outcome value :=
  match v with
  | VArray items => xs <~ forEach f items;; Ok (VArray xs)
  | VUndefined | VNull =>
      Throw (OtherError "TypeError"
               ("Cannot read properties of " ++ ToString v ++ " (reading 'map')"))
  | _ => Throw (OtherError "TypeError" "map is not a function")
  end.

(** The callback that batches.ts maps over the batch shipments. *)
Definition batchShipmentInput (bs : value) : Outcome value :=
  address_from <~ path bs ["shipment"; "address_from"];;
  address_to <~ path bs ["shipment"; "address_to"];;
  parcels <~ path bs ["shipment"; "parcels"];;
  carrier_account <~ getProp bs "carrier_account";;
  servicelevel_token <~ getProp bs "servicelevel_token";;
  metadata <~ getProp bs "metadata";;
  Ok (VObject [("shipment", VObject [("address_from", address_from);
                                     ("address_to", address_to);
                                     ("parcels", parcels)]);
               ("carrier_account", carrier_account);
               ("servicelevel_token", servicelevel_token);
               ("metadata", metadata)]).

Definition formatRefundAsMarkdown (refund : value) : Outcome string :=
  id <~ hole refund ["object_id"];;
  st <~ hole refund ["status"];;
  tx <~ hole refund ["transaction"];;
  created <~ hole refund ["object_created"];;
  Ok (join newline ["## Refund: " ++ id; EmptyString; "**Status:** " ++ st;
                    "**Transaction:** " ++ tx; "**Created:** " ++ created]).

Section Tools.

Variable formatErrorForLogging : JsError -> value.
Variable retryable : JsError -> bool.

(** formatBatchAsMarkdown and formatTrackingAsMarkdown, the two
    hand-written layouts of formatters.ts that compare a length with
    zero and iterate over whatever the remote side sent.  The handlers
    are stated for every behaviour of these two, a thrown error
    included. *)
Variable formatBatchAsMarkdown : value -> Outcome string.
Variable formatTrackingAsMarkdown : value -> Outcome string.

Let formatError' := formatError formatErrorForLogging retryable.

(** A handler that lists a collection:
    [formatResponse(await client.list({ results, page }), format, entity)]. *)
Definition listTool (name : string) (list : option object -> ClientCall)
    (entityType : string) : Tool :=
  {| toolName := name;
     clientCall := fun args => Ok (list (pagination args));
     render := fun args result =>
       formatResponse result (stringArg args "format") entityType;
     onError := formatError' |}.

(** A handler that gets one entity:
    [formatResponse(await client.get(id), format, entity)]. *)
Definition getTool (name : string) (idArg : string) (get : string -> ClientCall)
    (entityType : string) : Tool :=
  {| toolName := name;
     clientCall := fun args => Ok (get (stringArg args idArg));
     render := fun args entity =>
       formatResponse entity (stringArg args "format") entityType;
     onError := formatError' |}.

(** A handler whose success value is the JSON of an object built from
    the result. *)
Definition jsonTool (name : string) (call : object -> Outcome ClientCall)
    (success : object -> value -> Outcome object) : Tool :=
  {| toolName := name;
     clientCall := call;
     render := fun args result =>
       o <~ success args result;; Ok (jsonResponse o);
     onError := formatError' |}.

(** A handler with a layout of its own for Markdown and plain JSON
    otherwise. *)
Definition layoutTool (name : string) (call : object -> ClientCall)
    (layout : value -> Outcome string) : Tool :=
  {| toolName := name;
     clientCall := fun args => Ok (call args);
     render := fun args result =>
       if String.eqb (stringArg args "format") "markdown" then
         md <~ layout result;; Ok (textResponse (Some md))
       else Ok (textResponse (JSON_stringify_2 result));
     onError := formatError' |}.

Definition succeeded (message : string) : list (string * value) :=
  [("success", VBool true); ("message", VString message)].

(** *** addresses.ts *)

Definition shippo_list_addresses : Tool :=
  listTool "shippo_list_addresses" CallListAddresses "addresses".

Definition shippo_get_address : Tool :=
  getTool "shippo_get_address" "id" CallGetAddress "address".

Definition shippo_create_address : Tool :=
  jsonTool "shippo_create_address"
    (fun input => Ok (CallCreateAddress (VObject input)))
    (fun _ address =>
       Ok (succeeded "Address created" ++ [("address", address)])%list).

Definition shippo_validate_address : Tool :=
  jsonTool "shippo_validate_address"
    (fun args => Ok (CallValidateAddress (stringArg args "id")))
    (fun _ address =>
       validation <~ getProp address "validation_results";;
       let isValid :=
         nullish_else (getPropOpt validation "is_valid") (VBool false) in
       Ok [("success", VBool true);
           ("is_valid", isValid);
           ("validation_results", validation);
           ("address", address)]).

(** *** parcels.ts *)

Definition shippo_list_parcels : Tool :=
  listTool "shippo_list_parcels" CallListParcels "parcels".

Definition shippo_get_parcel : Tool :=
  getTool "shippo_get_parcel" "id" CallGetParcel "parcel".

Definition shippo_create_parcel : Tool :=
  jsonTool "shippo_create_parcel"
    (fun input => Ok (CallCreateParcel (VObject input)))
    (fun _ parcel =>
       Ok (succeeded "Parcel created" ++ [("parcel", parcel)])%list).

(** *** shipments.ts *)

Definition shippo_list_shipments : Tool :=
  listTool "shippo_list_shipments" CallListShipments "shipments".

Definition shippo_get_shipment : Tool :=
  getTool "shippo_get_shipment" "id" CallGetShipment "shipment".

Definition shippo_create_shipment : Tool :=
  jsonTool "shippo_create_shipment"
    (fun input =>
       Ok (CallCreateShipment
             (VObject (pick input
                         ["address_from"; "address_to"; "parcels";
                          "address_return"; "shipment_date";
                          "customs_declaration"; "carrier_accounts"; "extra";
                          "metadata"; "async"]))))
    (fun _ shipment =>
       id <~ getProp shipment "object_id";;
       st <~ getProp shipment "status";;
       n <~ path shipment ["rates"; "length"];;
       Ok (succeeded "Shipment created"
             ++ [("shipment_id", id); ("status", st); ("rates_count", n);
                 ("shipment", shipment)])%list).

(** *** rates.ts *)

Definition shippo_get_rate : Tool :=
  getTool "shippo_get_rate" "id" CallGetRate "rate".

Definition shippo_list_shipment_rates : Tool :=
  {| toolName := "shippo_list_shipment_rates";
     clientCall := fun args =>
       Ok (CallListShipmentRates (stringArg args "shipment_id")
                                 (optionalStringArg args "currency"));
     render := fun args result =>
       formatResponse result (stringArg args "format") "rates";
     onError := formatError' |}.

(** *** transactions.ts *)

Definition shippo_list_transactions : Tool :=
  listTool "shippo_list_transactions" CallListTransactions "transactions".

Definition shippo_get_transaction : Tool :=
  getTool "shippo_get_transaction" "id" CallGetTransaction "transaction".

(** The success object of both label purchases. *)
Definition labelPurchased (transaction : value) : Outcome object :=
  id <~ getProp transaction "object_id";;
  st <~ getProp transaction "status";;
  number <~ getProp transaction "tracking_number";;
  url <~ getProp transaction "tracking_url_provider";;
  label <~ getProp transaction "label_url";;
  Ok (succeeded "Label purchased"
        ++ [("transaction_id", id); ("status", st); ("tracking_number", number);
            ("tracking_url", url); ("label_url", label);
            ("transaction", transaction)])%list.

Definition shippo_create_transaction : Tool :=
  jsonTool "shippo_create_transaction"
    (fun args =>
       Ok (CallCreateTransaction
             (VObject (pick args ["rate"; "label_file_type"; "metadata"; "async"]))))
    (fun _ transaction => labelPurchased transaction).

Definition shippo_create_instant_transaction : Tool :=
  jsonTool "shippo_create_instant_transaction"
    (fun input =>
       Ok (CallCreateInstantTransaction
             (VObject
                (("shipment",
                  VObject (pick input ["address_from"; "address_to"; "parcels"]))
                   :: pick input ["carrier_account"; "servicelevel_token";
                                  "label_file_type"; "metadata"]))))
    (fun _ transaction => labelPurchased transaction).

(** *** tracking.ts *)

Definition shippo_get_tracking_status : Tool :=
  layoutTool "shippo_get_tracking_status"
    (fun args => CallGetTrackingStatus (stringArg args "carrier")
                                       (stringArg args "tracking_number"))
    formatTrackingAsMarkdown.

Definition shippo_register_tracking_webhook : Tool :=
  jsonTool "shippo_register_tracking_webhook"
    (fun args =>
       Ok (CallRegisterTrackingWebhook
             (VObject (pick args ["carrier"; "tracking_number"; "metadata"]))))
    (fun args tracking =>
       ts <~ getProp tracking "tracking_status";;
       Ok (succeeded "Tracking webhook registered"
             ++ pick args ["carrier"; "tracking_number"]
             ++ [("current_status", getPropOpt ts "status");
                 ("tracking", tracking)])%list).

(** *** customs.ts *)

Definition shippo_list_customs_items : Tool :=
  listTool "shippo_list_customs_items" CallListCustomsItems "customs_items".

Definition shippo_get_customs_item : Tool :=
  getTool "shippo_get_customs_item" "id" CallGetCustomsItem "customs_item".

Definition shippo_create_customs_item : Tool :=
  jsonTool "shippo_create_customs_item"
    (fun input => Ok (CallCreateCustomsItem (VObject input)))
    (fun _ item =>
       Ok (succeeded "Customs item created" ++ [("item", item)])%list).

Definition shippo_list_customs_declarations : Tool :=
  listTool "shippo_list_customs_declarations" CallListCustomsDeclarations
           "customs_declarations".

Definition shippo_get_customs_declaration : Tool :=
  getTool "shippo_get_customs_declaration" "id" CallGetCustomsDeclaration
          "customs_declaration".

Definition shippo_create_customs_declaration : Tool :=
  jsonTool "shippo_create_customs_declaration"
    (fun input =>
       Ok (CallCreateCustomsDeclaration
             (VObject (pick input
                         ["certify"; "certify_signer"; "contents_type";
                          "non_delivery_option"; "items"; "contents_explanation";
                          "exporter_reference"; "importer_reference"; "invoice";
                          "commercial_invoice"; "license"; "certificate"; "notes";
                          "eel_pfc"; "aes_itn"; "incoterm"; "b13a_filing_option";
                          "b13a_number"; "invoiced_charges";
                          "exporter_identification"; "metadata"]))))
    (fun _ declaration =>
       Ok (succeeded "Customs declaration created"
             ++ [("declaration", declaration)])%list).

(** *** refunds.ts *)

Definition shippo_create_refund : Tool :=
  jsonTool "shippo_create_refund"
    (fun args => Ok (CallCreateRefund (VObject (pick args ["transaction"; "async"]))))
    (fun _ refund =>
       id <~ getProp refund "object_id";;
       st <~ getProp refund "status";;
       Ok (succeeded "Refund requested"
             ++ [("refund_id", id); ("status", st); ("refund", refund)])%list).

Definition shippo_get_refund : Tool :=
  layoutTool "shippo_get_refund"
    (fun args => CallGetRefund (stringArg args "id"))
    formatRefundAsMarkdown.

(** *** carrier-accounts.ts *)

Definition shippo_list_carrier_accounts : Tool :=
  listTool "shippo_list_carrier_accounts" CallListCarrierAccounts
           "carrier_accounts".

Definition shippo_get_carrier_account : Tool :=
  getTool "shippo_get_carrier_account" "id" CallGetCarrierAccount
          "carrier_account".

Definition shippo_create_carrier_account : Tool :=
  jsonTool "shippo_create_carrier_account"
    (fun args =>
       Ok (CallCreateCarrierAccount
             (VObject (pick args ["carrier"; "account_id"; "parameters";
                                  "active"; "metadata"]))))
    (fun _ account =>
       id <~ getProp account "object_id";;
       carrier <~ getProp account "carrier";;
       active <~ getProp account "active";;
       Ok (succeeded "Carrier account created"
             ++ [("account_id", id); ("carrier", carrier); ("active", active);
                 ("account", account)])%list).

Definition shippo_update_carrier_account : Tool :=
  jsonTool "shippo_update_carrier_account"
    (fun args =>
       Ok (CallUpdateCarrierAccount (stringArg args "id")
                                    (VObject (withoutId args))))
    (fun _ account =>
       Ok (succeeded "Carrier account updated" ++ [("account", account)])%list).

(** *** manifests.ts *)

Definition shippo_list_manifests : Tool :=
  listTool "shippo_list_manifests" CallListManifests "manifests".

Definition shippo_get_manifest : Tool :=
  getTool "shippo_get_manifest" "id" CallGetManifest "manifest".

Definition shippo_create_manifest : Tool :=
  jsonTool "shippo_create_manifest"
    (fun args =>
       Ok (CallCreateManifest
             (VObject (pick args ["carrier_account"; "shipment_date";
                                  "address_from"; "transactions"; "async"]))))
    (fun _ manifest =>
       id <~ getProp manifest "object_id";;
       st <~ getProp manifest "status";;
       n <~ path manifest ["transactions"; "length"];;
       documents <~ getProp manifest "documents";;
       Ok (succeeded "Manifest created"
             ++ [("manifest_id", id); ("status", st); ("transactions_count", n);
                 ("documents", documents); ("manifest", manifest)])%list).

(** *** batches.ts *)

Definition shippo_get_batch : Tool :=
  layoutTool "shippo_get_batch"
    (fun args => CallGetBatch (stringArg args "id"))
    formatBatchAsMarkdown.

(** [batch_id], [status] and [shipments_count] of a batch. *)
Definition batchSummary (batch : value) : Outcome object :=
  id <~ getProp batch "object_id";;
  st <~ getProp batch "status";;
  n <~ path batch ["batch_shipments"; "count"];;
  Ok [("batch_id", id); ("status", st); ("shipments_count", n)].

Definition shippo_create_batch : Tool :=
  jsonTool "shippo_create_batch"
    (fun input =>
       shipments <~ Array_map (arg input "batch_shipments") batchShipmentInput;;
       Ok (CallCreateBatch
             (VObject (pick input ["default_carrier_account";
                                   "default_servicelevel_token";
                                   "label_file_type"]
                         ++ [("batch_shipments", shipments);
                             ("metadata", arg input "metadata")])%list)))
    (fun _ batch =>
       summary <~ batchSummary batch;;
       Ok (succeeded "Batch created" ++ summary ++ [("batch", batch)])%list).

Definition shippo_add_shipments_to_batch : Tool :=
  jsonTool "shippo_add_shipments_to_batch"
    (fun args =>
       shipments <~ Array_map (arg args "shipments") batchShipmentInput;;
       Ok (CallAddShipmentsToBatch (stringArg args "batch_id")
                                   (VObject [("shipments", shipments)])))
    (fun _ batch =>
       summary <~ batchSummary batch;;
       Ok (succeeded "Shipments added to batch" ++ summary)%list).

Definition shippo_remove_shipments_from_batch : Tool :=
  jsonTool "shippo_remove_shipments_from_batch"
    (fun args =>
       Ok (CallRemoveShipmentsFromBatch (stringArg args "batch_id")
                                        (VObject (pick args ["shipment_ids"]))))
    (fun _ batch =>
       summary <~ batchSummary batch;;
       Ok (succeeded "Shipments removed from batch" ++ summary)%list).

Definition shippo_purchase_batch : Tool :=
  jsonTool "shippo_purchase_batch"
    (fun args => Ok (CallPurchaseBatch (stringArg args "batch_id")))
    (fun _ batch =>
       id <~ getProp batch "object_id";;
       st <~ getProp batch "status";;
       label <~ getProp batch "label_url";;
       Ok (succeeded "Batch purchase initiated"
             ++ [("batch_id", id); ("status", st); ("label_url", label);
                 ("batch", batch)])%list).

(** *** pickups.ts *)

Definition shippo_create_pickup : Tool :=
  jsonTool "shippo_create_pickup"
    (fun args =>
       let location := arg args "location" in
       building_location_type <~ getProp location "building_location_type";;
       address <~ getProp location "address";;
       building_type <~ getProp location "building_type";;
       instructions <~ getProp location "instructions";;
       Ok (CallCreatePickup
             (VObject (pick args ["carrier_account"; "transactions";
                                  "requested_start_time"; "requested_end_time"]
                         ++ [("location",
                              VObject [("building_location_type",
                                        building_location_type);
                                       ("address", address);
                                       ("building_type", building_type);
                                       ("instructions", instructions)])]
                         ++ pick args ["is_test"; "metadata"])%list)))
    (fun _ pickup =>
       id <~ getProp pickup "object_id";;
       st <~ getProp pickup "status";;
       code <~ getProp pickup "confirmation_code";;
       starts <~ getProp pickup "confirmed_start_time";;
       ends <~ getProp pickup "confirmed_end_time";;
       Ok (succeeded "Pickup scheduled"
             ++ [("pickup_id", id); ("status", st); ("confirmation_code", code);
                 ("confirmed_start", starts); ("confirmed_end", ends);
                 ("pickup", pickup)])%list).

(** *** orders.ts *)

Definition shippo_list_orders : Tool :=
  listTool "shippo_list_orders" CallListOrders "orders".

Definition shippo_get_order : Tool :=
  getTool "shippo_get_order" "id" CallGetOrder "order".

Definition shippo_create_order : Tool :=
  jsonTool "shippo_create_order"
    (fun input =>
       Ok (CallCreateOrder
             (VObject (pick input
                         ["to_address"; "from_address"; "line_items"; "placed_at";
                          "order_number"; "order_status"; "shipping_cost";
                          "shipping_cost_currency"; "shipping_method";
                          "subtotal_price"; "total_price"; "total_tax";
                          "currency"; "weight"; "weight_unit"; "notes"]))))
    (fun _ order =>
       id <~ getProp order "object_id";;
       number <~ getProp order "order_number";;
       st <~ getProp order "order_status";;
       Ok (succeeded "Order created"
             ++ [("order_id", id); ("order_number", number); ("status", st);
                 ("order", order)])%list).

(** *** service-groups.ts *)

Definition serviceGroupFields : list string :=
  ["name"; "description"; "type"; "service_levels"; "flat_rate";
   "flat_rate_currency"; "free_shipping_threshold_min";
   "free_shipping_threshold_currency"; "rate_adjustment"; "is_active"].

Definition shippo_list_service_groups : Tool :=
  {| toolName := "shippo_list_service_groups";
     clientCall := fun _ => Ok CallListServiceGroups;
     render := fun args groups =>
       n <~ getProp groups "length";;
       formatResponse (VObject [("count", n); ("results", groups)])
                      (stringArg args "format") "service_groups";
     onError := formatError' |}.

Definition shippo_create_service_group : Tool :=
  jsonTool "shippo_create_service_group"
    (fun input =>
       Ok (CallCreateServiceGroup (VObject (pick input serviceGroupFields))))
    (fun _ group =>
       id <~ getProp group "object_id";;
       name <~ getProp group "name";;
       kind <~ getProp group "type";;
       Ok (succeeded "Service group created"
             ++ [("group_id", id); ("name", name); ("type", kind);
                 ("group", group)])%list).

Definition shippo_update_service_group : Tool :=
  jsonTool "shippo_update_service_group"
    (fun input =>
       Ok (CallUpdateServiceGroup (VObject (pick input serviceGroupFields))))
    (fun _ group =>
       Ok (succeeded "Service group updated" ++ [("group", group)])%list).

Definition shippo_delete_service_group : Tool :=
  jsonTool "shippo_delete_service_group"
    (fun args => Ok (CallDeleteServiceGroup (stringArg args "id")))
    (fun args _ =>
       id <~ String_of (arg args "id");;
       Ok (succeeded ("Service group " ++ id ++ " deleted"))).

(** *** parcel-templates.ts *)

Definition shippo_list_carrier_parcel_templates : Tool :=
  {| toolName := "shippo_list_carrier_parcel_templates";
     clientCall := fun args =>
       Ok (CallListCarrierParcelTemplates
             (Some (pick args ["carrier"; "include"; "results"; "page"])));
     render := fun args result =>
       formatResponse result (stringArg args "format") "carrier_parcel_templates";
     onError := formatError' |}.

Definition shippo_get_carrier_parcel_template : Tool :=
  getTool "shippo_get_carrier_parcel_template" "token"
          CallGetCarrierParcelTemplate "carrier_parcel_template".

Definition shippo_list_user_parcel_templates : Tool :=
  listTool "shippo_list_user_parcel_templates" CallListUserParcelTemplates
           "user_parcel_templates".

Definition shippo_get_user_parcel_template : Tool :=
  getTool "shippo_get_user_parcel_template" "id" CallGetUserParcelTemplate
          "user_parcel_template".

Definition shippo_create_user_parcel_template : Tool :=
  jsonTool "shippo_create_user_parcel_template"
    (fun input => Ok (CallCreateUserParcelTemplate (VObject input)))
    (fun _ tmpl =>
       id <~ getProp tmpl "object_id";;
       name <~ getProp tmpl "name";;
       Ok (succeeded "User parcel template created"
             ++ [("template_id", id); ("name", name); ("template", tmpl)])%list).

Definition shippo_delete_user_parcel_template : Tool :=
  jsonTool "shippo_delete_user_parcel_template"
    (fun args => Ok (CallDeleteUserParcelTemplate (stringArg args "id")))
    (fun args _ =>
       id <~ String_of (arg args "id");;
       Ok (succeeded ("User parcel template " ++ id ++ " deleted"))).

(** *** live-rates.ts *)

Definition shippo_create_live_rate : Tool :=
  jsonTool "shippo_create_live_rate"
    (fun input =>
       Ok (CallCreateLiveRate
             (VObject (pick input ["address_from"; "address_to"; "line_items";
                                   "parcel"]))))
    (fun _ rates =>
       n <~ getProp rates "length";;
       Ok [("success", VBool true); ("rates_count", n); ("rates", rates)]).

Definition shippo_get_default_parcel_template : Tool :=
  {| toolName := "shippo_get_default_parcel_template";
     clientCall := fun _ => Ok CallGetDefaultParcelTemplate;
     render := fun args tmpl =>
       if negb (truthy tmpl) then
         Ok (jsonResponse
               [("message", VString "No default parcel template set")])
       else
         formatResponse tmpl (stringArg args "format") "default_parcel_template";
     onError := formatError' |}.

Definition shippo_update_default_parcel_template : Tool :=
  jsonTool "shippo_update_default_parcel_template"
    (fun args =>
       Ok (CallUpdateDefaultParcelTemplate (VObject (pick args ["object_id"]))))
    (fun _ tmpl =>
       Ok (succeeded "Default parcel template updated"
             ++ [("template", tmpl)])%list).

Definition shippo_delete_default_parcel_template : Tool :=
  jsonTool "shippo_delete_default_parcel_template"
    (fun _ => Ok CallDeleteDefaultParcelTemplate)
    (fun _ _ => Ok (succeeded "Default parcel template cleared")).

(** *** index.ts: the connection tool has a catch block of its own *)

Definition shippo_test_connection : Tool :=
  {| toolName := "shippo_test_connection";
     clientCall := fun _ => Ok CallTestConnection;
     render := fun _ result => Ok (textResponse (JSON_stringify_2 result));
     onError := fun error =>
       {| content :=
            [{| type := "text";
                text := Some ("Connection failed: "
                                ++ (if instanceofError error
                                    then ToString (errorMessage error)
                                    else "Unknown error")) |}];
          isError := Some true |} |}.

(** Every tool that createStatelessServer registers. *)
Definition tools : list Tool :=
  [shippo_list_addresses; shippo_get_address; shippo_create_address;
   shippo_validate_address;
   shippo_list_parcels; shippo_get_parcel; shippo_create_parcel;
   shippo_list_shipments; shippo_get_shipment; shippo_create_shipment;
   shippo_get_rate; shippo_list_shipment_rates;
   shippo_list_transactions; shippo_get_transaction;
   shippo_create_transaction; shippo_create_instant_transaction;
   shippo_get_tracking_status; shippo_register_tracking_webhook;
   shippo_create_refund; shippo_get_refund;
   shippo_list_carrier_accounts; shippo_get_carrier_account;
   shippo_create_carrier_account; shippo_update_carrier_account;
   shippo_list_customs_items; shippo_get_customs_item;
   shippo_create_customs_item;
   shippo_list_customs_declarations; shippo_get_customs_declaration;
   shippo_create_customs_declaration;
   shippo_list_manifests; shippo_get_manifest; shippo_create_manifest;
   shippo_get_batch; shippo_create_batch; shippo_add_shipments_to_batch;
   shippo_remove_shipments_from_batch; shippo_purchase_batch;
   shippo_create_pickup;
   shippo_list_orders; shippo_get_order; shippo_create_order;
   shippo_list_service_groups; shippo_create_service_group;
   shippo_update_service_group; shippo_delete_service_group;
   shippo_list_carrier_parcel_templates; shippo_get_carrier_parcel_template;
   shippo_list_user_parcel_templates; shippo_get_user_parcel_template;
   shippo_create_user_parcel_template; shippo_delete_user_parcel_template;
   shippo_create_live_rate; shippo_get_default_parcel_template;
   shippo_update_default_parcel_template;
   shippo_delete_default_parcel_template;
   shippo_test_connection].

Variable fetch : Fetch.

(** What the server runs when the tool is invoked with [args]. *)
Definition handler (this : ShippoClientImpl) (t : Tool) (args : object)
  : M ToolResponse :=
  tryCatch
    (call <- lift (clientCall t args);;
     result <- invoke fetch this call;;
     lift (render t args result))
    (fun error => ret (onError t error)).

End Tools.

(* ================================================================= *)
(** ** Environment values (types/env.ts) *)

(** [env[key]] is read off the bindings object; a value that is not a
    string, or that does not parse, gives the default. *)
Definition getEnvNumber (env : object) (key : string) (defaultValue : number)
  : number :=
  match lookup key env with
  | Some (VString text) =>
      match Number_parseInt10 text with
      | NaN => defaultValue
      | parsed => parsed
      end
  | _ => defaultValue
  end.

Definition getCharacterLimit (env : object) : number :=
  getEnvNumber env "CHARACTER_LIMIT" (Int 50000).

Definition getDefaultPageSize (env : object) : number :=
  getEnvNumber env "DEFAULT_PAGE_SIZE" (Int 20).

Definition getMaxPageSize (env : object) : number :=
  getEnvNumber env "MAX_PAGE_SIZE" (Int 100).

(* ================================================================= *)
(** ** The worker's fetch handler (index.ts) *)

Definition SERVER_NAME : string := "primrose-mcp-shippo".
Definition SERVER_VERSION : string := "1.0.0".

(** What the handler looks at of the inbound request: the path of its
    URL, its method and its headers. *)
Record InboundRequest : Type := mkInbound {
  pathname : string;
  httpMethod : string;
  inboundHeaders : list (string * string)
}.

(** [new Response(body, { status, headers })] *)
Record WorkerResponse : Type := mkWorkerResponse {
  workerStatus : Z;
  workerBody : string;
  workerHeaders : list (string * string)
}.

(** The handler answers by itself, or hands the request to the MCP
    handler of a server created for the tenant's credentials. *)
Inductive WorkerResult : Type :=
| Reply (response : WorkerResponse)
| ServeMcp (creds : TenantCredentials).

(** [JSON.stringify(o)] of an object literal. *)
Definition jsonText (o : object) : string :=
  match JSON_stringify (VObject o) with
  | Some s => s
  | None => EmptyString
  end.

Definition jsonHeaders : list (string * string) :=
  [("Content-Type", "application/json")].

(** The tool names that the default response lists. *)
Definition documentedTools : list string :=
  ["shippo_list_addresses"; "shippo_get_address"; "shippo_create_address";
   "shippo_validate_address";
   "shippo_list_parcels"; "shippo_get_parcel"; "shippo_create_parcel";
   "shippo_list_shipments"; "shippo_get_shipment"; "shippo_create_shipment";
   "shippo_get_rate"; "shippo_list_shipment_rates";
   "shippo_list_transactions"; "shippo_get_transaction";
   "shippo_create_transaction"; "shippo_create_instant_transaction";
   "shippo_get_tracking_status"; "shippo_register_tracking_webhook";
   "shippo_create_refund"; "shippo_get_refund";
   "shippo_list_carrier_accounts"; "shippo_get_carrier_account";
   "shippo_create_carrier_account"; "shippo_update_carrier_account";
   "shippo_list_customs_items"; "shippo_get_customs_item";
   "shippo_create_customs_item"; "shippo_list_customs_declarations";
   "shippo_get_customs_declaration"; "shippo_create_customs_declaration";
   "shippo_list_manifests"; "shippo_get_manifest"; "shippo_create_manifest";
   "shippo_get_batch"; "shippo_create_batch"; "shippo_add_shipments_to_batch";
   "shippo_remove_shipments_from_batch"; "shippo_purchase_batch";
   "shippo_create_pickup";
   "shippo_list_orders"; "shippo_get_order"; "shippo_create_order";
   "shippo_list_service_groups"; "shippo_create_service_group";
   "shippo_update_service_group"; "shippo_delete_service_group";
   "shippo_list_carrier_parcel_templates"; "shippo_get_carrier_parcel_template";
   "shippo_list_user_parcel_templates"; "shippo_get_user_parcel_template";
   "shippo_create_user_parcel_template"; "shippo_delete_user_parcel_template";
   "shippo_create_live_rate"; "shippo_get_default_parcel_template";
   "shippo_update_default_parcel_template";
   "shippo_delete_default_parcel_template";
   "shippo_test_connection"].

(** The body of the default response. *)
Definition apiDocumentation : object :=
  [("name", VString SERVER_NAME);
   ("version", VString SERVER_VERSION);
   ("description", VString "Multi-tenant Shippo Shipping MCP Server");
   ("endpoints",
    VObject [("mcp", VString "/mcp (POST) - Streamable HTTP MCP endpoint");
             ("health", VString "/health - Health check")]);
   ("authentication",
    VObject [("description",
              VString "Pass tenant credentials via request headers");
             ("required_headers",
              VObject [("X-Shippo-API-Key", VString "Your Shippo API key")]);
             ("optional_headers",
              VObject [("X-Shippo-Base-URL",
                        VString "Override the default Shippo API base URL")])]);
   ("tools", VArray (map VString documentedTools))].

(** The 401 that answers a request without usable credentials. *)
Definition unauthorized (error : JsError) : WorkerResponse :=
  {| workerStatus := 401;
     workerBody :=
       jsonText [("error", VString "Unauthorized");
                 ("message", if instanceofError error then errorMessage error
                             else VString "Invalid credentials");
                 ("required_headers", VArray [VString "X-Shippo-API-Key"])];
     workerHeaders := jsonHeaders |}.

(** The [fetch] handler of the worker. *)
Definition workerFetch (request : InboundRequest) : WorkerResult :=
  if String.eqb (pathname request) "/health" then
    Reply {| workerStatus := 200;
             workerBody := jsonText [("status", VString "ok");
                                     ("server", VString SERVER_NAME)];
             workerHeaders := jsonHeaders |}
  else if String.eqb (pathname request) "/mcp"
          && String.eqb (httpMethod request) "POST" then
    let creds := parseTenantCredentials (inboundHeaders request) in
    match validateCredentials creds with
    | Throw error => Reply (unauthorized error)
    | Ok _ => ServeMcp creds
    end
  else if String.eqb (pathname request) "/sse" then
    Reply {| workerStatus := 501;
             workerBody :=
               "SSE endpoint requires Durable Objects. Enable in wrangler.jsonc.";
             workerHeaders := [] |}
  else
    Reply {| workerStatus := 200;
             workerBody := jsonText apiDocumentation;
             workerHeaders := jsonHeaders |}.

(* ================================================================= *)
(** ** Sample inputs and the statements of the specification *)

Definition sampleCredentials : TenantCredentials :=
  {| apiKey := Some "shippo_test_0123"; baseUrl := None |}.

Definition sampleClient : ShippoClientImpl := createShippoClient sampleCredentials.

(** A remote side that answers every call with the same response. *)
Definition fetchAlways (r : Response) : Fetch := fun _ _ => Responds r.

(** A remote side that cannot be reached. *)
Definition fetchDown : Fetch :=
  fun _ _ => Rejects (OtherError "TypeError" "fetch failed").

Definition rateLimited (retryAfter : option string) : Response :=
  {| status := 429;
     responseHeaders := match retryAfter with
                        | Some text => [("Retry-After", text)]
                        | None => []
                        end;
     responseBody := NotJson "Too Many Requests" |}.

Definition jsonReply (code : Z) (v : value) : Response :=
  {| status := code;
     responseHeaders := [("Content-Type", "application/json")];
     responseBody := Json v |}.

(** Stand-ins for the two members of utils/errors.ts. *)
Definition sampleErrorInfo (e : JsError) : value :=
  VObject [("message", errorMessage e)].

Definition sampleRetryable (e : JsError) : bool :=
  match errorStatusCode e with
  | Some code => 500 <=? code
  | None => false
  end.

(** The message [request] gives a generic API failure. *)
Definition apiErrorMessage (r : Response) : value :=
  let fallback := VString ("API error: " ++ string_of_Z (status r)) in
  match responseBody r with
  | Json errorJson =>
      match pickErrorMessage errorJson fallback with
      | Ok m => m
      | Throw _ => fallback
      end
  | NotJson _ => fallback
  end.

(** The message as the specification words it: the value of the first
    of [detail], [message] and [error] that the body contains. *)
Definition messageAsStated (r : Response) : value :=
  let fallback := VString ("API error: " ++ string_of_Z (status r)) in
  match responseBody r with
  | Json (VObject props) =>
      match lookup "detail" props with
      | Some v => v
      | None =>
          match lookup "message" props with
          | Some v => v
          | None =>
              match lookup "error" props with
              | Some v => v
              | None => fallback
              end
          end
      end
  | _ => fallback
  end.

Definition firstTruthy (candidates : list value) (fallback : value) : value :=
  match find truthy candidates with
  | Some v => v
  | None => fallback
  end.

(** [o[k]] for an object given by its properties. *)
Definition own (props : object) (k : string) : value :=
  match lookup k props with
  | Some v => v
  | None => VUndefined
  end.

(** The message as the code computes it: the first of the three
    fields whose value is truthy. *)
Definition messageByTruthiness (r : Response) : value :=
  let fallback := VString ("API error: " ++ string_of_Z (status r)) in
  match responseBody r with
  | Json (VObject props) =>
      firstTruthy [own props "detail"; own props "message"; own props "error"]
                  fallback
  | _ => fallback
  end.

(** The entry that one call of [request] adds to the network log. *)
Definition outbound (this : ShippoClientImpl) (key endpoint : string)
    (options : RequestInit) : string * RequestInit :=
  (clientBaseUrl this ++ endpoint, withHeaders (authHeaders key) options).

(** C3, as the specification states it. *)
Definition C3_as_stated : Prop :=
  forall (fetch : Fetch) (this : ShippoClientImpl) (key endpoint : string)
         (options : RequestInit) (log : NetLog) (r : Response),
    orUndefined (apiKey (credentials this)) = Some key ->
    fetch (fst (outbound this key endpoint options))
          (snd (outbound this key endpoint options)) = Responds r ->
    ok r = false -> status r <> 429 -> status r <> 401 -> status r <> 403 ->
    fst (request fetch this endpoint options log)
      = Throw (ShippoApiError (messageAsStated r) (status r)).

Definition isNotFound (e : JsError) : Prop :=
  exists m, e = ShippoApiError m 404.

Definition parcelTemplatePath : string := "/live-rates/settings/parcel-template".

(** C2, as the specification states it: the result is null exactly when
    the underlying request throws a 404 API failure, and every other
    failure of the request is thrown unchanged. *)
Definition C2_as_stated : Prop :=
  forall (fetch : Fetch) (this : ShippoClientImpl) (log : NetLog),
    (fst (getDefaultParcelTemplate fetch this log) = Ok VNull
     <-> exists e,
           fst (request fetch this parcelTemplatePath noOptions log) = Throw e
           /\ isNotFound e)
    /\ (forall e,
          fst (request fetch this parcelTemplatePath noOptions log) = Throw e ->
          ~ isNotFound e ->
          fst (getDefaultParcelTemplate fetch this log) = Throw e).

Definition connectionPath : string := "/addresses?results=1".

Definition noCredentialsMessage : string :=
  "No credentials provided. Include X-Shippo-API-Key header.".

Ltac unfold_client :=
  unfold invoke, testConnection,
    listAddresses, getAddress, createAddress, validateAddress,
    listParcels, getParcel, createParcel,
    listShipments, getShipment, createShipment, getRate, listShipmentRates,
    listTransactions, getTransaction, createTransaction,
    createInstantTransaction, getTrackingStatus, registerTrackingWebhook,
    createRefund, getRefund,
    listCarrierAccounts, getCarrierAccount, createCarrierAccount,
    updateCarrierAccount,
    listCustomsItems, getCustomsItem, createCustomsItem,
    listCustomsDeclarations, getCustomsDeclaration, createCustomsDeclaration,
    listManifests, getManifest, createManifest,
    getBatch, createBatch, addShipmentsToBatch, removeShipmentsFromBatch,
    purchaseBatch, createPickup, listOrders, getOrder, createOrder,
    listServiceGroups, createServiceGroup, updateServiceGroup,
    deleteServiceGroup, listCarrierParcelTemplates, getCarrierParcelTemplate,
    listUserParcelTemplates, getUserParcelTemplate, createUserParcelTemplate,
    deleteUserParcelTemplate, createLiveRate, getDefaultParcelTemplate,
    updateDefaultParcelTemplate, deleteDefaultParcelTemplate,
    send, sendEmpty, tryCatch, bind.

(** C4, as the specification states it: with an undefined key every
    client operation throws an authentication failure and the network
    log stays as it was. *)
Definition C4_as_stated : Prop :=
  forall (fetch : Fetch) (creds : TenantCredentials) (call : ClientCall)
         (log : NetLog),
    apiKey creds = None ->
    exists m,
      invoke fetch (createShippoClient creds) call log
      = (Throw (AuthenticationError m), log).

(** C9, as stated: the empty header gives an undefined key, the key
    check rejects the empty string, and every operation with an
    empty-string key throws an authentication failure without a
    network call. *)
Definition C9_as_stated : Prop :=
  (forall hs, Headers_get hs "X-Shippo-API-Key" = Some EmptyString ->
              apiKey (parseTenantCredentials hs) = None)
  /\ (forall this, apiKey (credentials this) = Some EmptyString ->
        getAuthHeaders this = Throw (AuthenticationError noCredentialsMessage))
  /\ (forall (fetch : Fetch) (creds : TenantCredentials) (call : ClientCall)
             (log : NetLog),
        apiKey creds = Some EmptyString ->
        exists m,
          invoke fetch (createShippoClient creds) call log
          = (Throw (AuthenticationError m), log)).

(** A parameter is present when its value is neither [undefined] nor
    [null]. *)
Definition isPresent (v : value) : bool :=
  match v with
  | VUndefined | VNull => false
  | _ => true
  end.

(** One serialised parameter: name, the equals sign, the stringified
    value, both form-urlencoded. *)
Definition serializedParam (kv : string * value) : string :=
  urlencode (fst kv) ++ "=" ++ urlencode (ToString (snd kv)).

(** The query string as the specification words it. *)
Definition queryAsSpecified (params : option object) : string :=
  match params with
  | None => EmptyString
  | Some entries =>
      match filter (fun kv => isPresent (snd kv)) entries with
      | [] => EmptyString
      | present => "?" ++ join "&" (map serializedParam present)
      end
  end.

(** The loop of buildQueryString. *)
Definition addParam (q : URLSearchParams) (kv : string * value) : URLSearchParams :=
  match snd kv with
  | VUndefined | VNull => q
  | v => URLSearchParams_set (fst kv) (ToString v) q
  end.

Definition uspsPriority : value :=
  VArray [VObject [("title", VString "USPS Priority");
                   ("amount", VString "7.50");
                   ("currency", VString "USD")]].

(** The error envelope: one text item holding the JSON of
    {error: message, details}, and isError set. *)
Definition errorEnvelope (message : string) (details : value) : ToolResponse :=
  {| content :=
       [{| type := "text";
           text := JSON_stringify_2 (VObject [("error", VString message);
                                              ("details", details)]) |}];
     isError := Some true |}.

(** Stand-ins for the two layouts that the tools take as given. *)
Definition sampleLayout (v : value) : Outcome string :=
  id <~ hole v ["object_id"];; Ok ("## " ++ id).

Definition sampleTools : list Tool :=
  tools sampleErrorInfo sampleRetryable sampleLayout sampleLayout.

(** The lines of an empty page: heading, blank, counts (with the text
    of the total), the note on a next page when there is one, blank,
    and the closing remark. *)
Definition emptyPageLines (entityType total : string) (more : value)
  : list string :=
  ["## " ++ capitalize entityType;
   EmptyString;
   "**Total:** " ++ total ++ " | **Showing:** 0"]
  ++ (if truthy more then ["**Next page available**"] else [])
  ++ [EmptyString; "_No items found._"].

(** C10, as the specification states it: every page whose results are
    empty is rendered as the heading and count lines followed by the
    closing remark, whatever table formatter the entity type selects. *)
Definition C10_as_stated : Prop :=
  forall (data : PaginatedResponse) (entityType : string),
    results data = [] ->
    exists total,
      forall tableFor,
        formatPaginatedWith tableFor data entityType
        = Ok (join newline (emptyPageLines entityType total (next data))).

(** A JSON body that the type guard accepts as a page, with no results
    and a count that has a property named toString. *)
Definition unconvertibleCountPage : value :=
  VObject [("count", VObject [("toString", VNumber (Int 1))]);
           ("results", VArray [])].

(** Values that are neither arrays nor objects. *)
Definition isPrimitive (v : value) : bool :=
  match v with
  | VArray _ | VObject _ => false
  | _ => true
  end.

Definition emptyShipmentsPage : PaginatedResponse :=
  {| count := VNumber (Int 0); next := VNull; previous := VNull; results := [] |}.

(** Occurrences of a character in a string. *)
Fixpoint countChar (c : ascii) (s : string) : nat :=
  match s with
  | EmptyString => 0%nat
  | String c' rest =>
      ((if Ascii.eqb c c' then 1 else 0) + countChar c rest)%nat
  end.

(** The parameters of an object that the query string carries. *)
Definition presentParams (entries : object) : object :=
  filter (fun kv => isPresent (snd kv)) entries.





(** The base URL that a tenant's headers select. *)
Definition tenantBaseUrl (hs : list (string * string)) : string :=
  match orUndefined (Headers_get hs "X-Shippo-Base-URL") with
  | Some url => url
  | None => API_BASE_URL
  end.

Definition noTemplateMessage : ToolResponse :=
  jsonResponse [("message", VString "No default parcel template set")].

(** Whether a list of names has no repetition. *)
Fixpoint distinct (names : list string) : bool :=
  match names with
  | [] => true
  | n :: rest => negb (existsb (String.eqb n) rest) && distinct rest
  end.

(** The options of the live-rate request that the tool sends. *)
Definition liveRateOptions (input : object) : RequestInit :=
  {| method := Some "POST";
     body := JSON_stringify
               (VObject (pick input ["address_from"; "address_to";
                                     "line_items"; "parcel"]));
     headers := None |}.

(** One outbound call as the network log records it. *)
Definition authorizedCall (this : ShippoClientImpl) (key endpoint : string)
    (verb body : option string) : string * RequestInit :=
  (clientBaseUrl this ++ endpoint,
   {| method := verb; body := body; headers := Some (authHeaders key) |}).

(** What the connection tool answers when the client has no key. *)
Definition notConnected : ToolResponse :=
  textResponse
    (JSON_stringify_2
       (VObject [("connected", VBool false);
                 ("message", VString noCredentialsMessage)])).

(* ================================================================= *)
(** ** The request primitive, case by case *)

Section RequestFacts.

Variable fetch : Fetch.
Variable this : ShippoClientImpl.
Variables (endpoint : string) (options : RequestInit) (log : NetLog).

Let url := clientBaseUrl this ++ endpoint.

Lemma request_no_key :
  orUndefined (apiKey (credentials this)) = None ->
  request fetch this endpoint options log =
  (Throw (AuthenticationError
            "No credentials provided. Include X-Shippo-API-Key header."), log).
Proof.
  intros Hkey. unfold request, bind, lift, getAuthHeaders.
  now rewrite Hkey.
Qed.

Variable key : string.
Hypothesis Hkey : orUndefined (apiKey (credentials this)) = Some key.

Let init := withHeaders (authHeaders key) options.
Let log' := (log ++ [(url, init)])%list.

Lemma request_rejected (e : JsError) :
  fetch url init = Rejects e ->
  request fetch this endpoint options log = (Throw e, log').
Proof.
  intros Hf. unfold request, bind, lift, getAuthHeaders, doFetch.
  rewrite Hkey. fold url init. now rewrite Hf.
Qed.

Variable r : Response.
Hypothesis Hfetch : fetch url init = Responds r.

Lemma request_429 :
  status r = 429 ->
  request fetch this endpoint options log =
  (Throw (RateLimitError "Rate limit exceeded"
            (retryAfterSecondsOf (Headers_get (responseHeaders r) "Retry-After"))),
   log').
Proof.
  intros Hs. unfold request, bind, lift, getAuthHeaders, doFetch.
  rewrite Hkey. fold url init. rewrite Hfetch, Hs. reflexivity.
Qed.

Lemma request_401_403 :
  status r = 401 \/ status r = 403 ->
  request fetch this endpoint options log =
  (Throw (AuthenticationError "Authentication failed. Check your Shippo API key."),
   log').
Proof.
  intros Hs. unfold request, bind, lift, getAuthHeaders, doFetch.
  rewrite Hkey. fold url init. rewrite Hfetch.
  destruct Hs as [Hs | Hs]; rewrite Hs; reflexivity.
Qed.

Lemma request_api_error :
  ok r = false -> status r <> 429 -> status r <> 401 -> status r <> 403 ->
  request fetch this endpoint options log =
  (Throw (ShippoApiError (apiErrorMessage r) (status r)), log').
Proof.
  intros Hok H429 H401 H403.
  unfold request, bind, lift, getAuthHeaders, doFetch.
  rewrite Hkey. fold url init. rewrite Hfetch.
  apply Z.eqb_neq in H429, H401, H403.
  rewrite H429, H401, H403, Hok. reflexivity.
Qed.

Lemma ok_excludes_failures :
  ok r = true -> (status r =? 429) = false /\ (status r =? 401) = false
                 /\ (status r =? 403) = false.
Proof.
  unfold ok. intros H. apply andb_true_iff in H as [H1 H2].
  apply Z.leb_le in H1, H2. repeat split; apply Z.eqb_neq; lia.
Qed.

Lemma request_204 :
  status r = 204 ->
  request fetch this endpoint options log = (Ok VUndefined, log').
Proof.
  intros Hs. unfold request, bind, lift, getAuthHeaders, doFetch, ok.
  rewrite Hkey. fold url init. rewrite Hfetch, Hs. reflexivity.
Qed.

Lemma request_success (v : value) :
  ok r = true -> status r <> 204 -> responseBody r = Json v ->
  request fetch this endpoint options log = (Ok v, log').
Proof.
  intros Hok H204 Hbody.
  destruct (ok_excludes_failures Hok) as (H429 & H401 & H403).
  unfold request, bind, lift, getAuthHeaders, doFetch.
  rewrite Hkey. fold url init. rewrite Hfetch.
  apply Z.eqb_neq in H204.
  rewrite H429, H401, H403, Hok, H204. unfold Response_json, ret.
  now rewrite Hbody.
Qed.

End RequestFacts.

(* ================================================================= *)
(** ** Rate limiting: the retry-after hint *)

Lemma retryAfter_absent : retryAfterSecondsOf None = Int 60.
Proof. reflexivity. Qed.

Lemma retryAfter_empty : retryAfterSecondsOf (Some EmptyString) = Int 60.
Proof. reflexivity. Qed.

(** A present, non-empty header is handed to [Number.parseInt] as it is. *)
Lemma retryAfter_present (c : ascii) (rest : string) :
  retryAfterSecondsOf (Some (String c rest)) = Number_parseInt10 (String c rest).
Proof. reflexivity. Qed.

(** A header that does not begin with white space and whose first
    character is neither a sign nor a digit parses to NaN. *)
Lemma parseInt10_no_digit (c : ascii) (rest : string) :
  trimStart (String c rest) = String c rest -> digitValue c = None ->
  c <> "-"%char -> c <> "+"%char ->
  Number_parseInt10 (String c rest) = NaN.
Proof.
  intros Hw Hd Hm Hp. unfold Number_parseInt10. rewrite Hw.
  assert (E : match String c rest with
              | String "-" rest0 => (-1, rest0)
              | String "+" rest0 => (1, rest0)
              | _ => (1, String c rest)
              end = (1, String c rest)).
  { destruct c as [[] [] [] [] [] [] [] []]; try reflexivity; congruence. }
  rewrite E. simpl. now rewrite Hd.
Qed.

(** C1, at the inputs the specification names.  A 429 whose Retry-After
    header is "120" throws a rate-limit failure with the hint 120, and
    a 429 without the header throws one with the hint 60; but a 429
    whose header is the text "NaN", or an HTTP date, throws a rate-limit
    failure whose hint is NaN, not 60: the default is applied to an
    absent or empty header only. *)
Theorem C1_retry_after_non_numeric_is_NaN :
  fst (request (fetchAlways (rateLimited (Some "120")))
         sampleClient "/addresses" noOptions [])
    = Throw (RateLimitError "Rate limit exceeded" (Int 120))
  /\ fst (request (fetchAlways (rateLimited None))
            sampleClient "/addresses" noOptions [])
    = Throw (RateLimitError "Rate limit exceeded" (Int 60))
  /\ fst (request (fetchAlways (rateLimited (Some "NaN")))
            sampleClient "/addresses" noOptions [])
    = Throw (RateLimitError "Rate limit exceeded" NaN)
  /\ fst (request (fetchAlways (rateLimited (Some "Wed, 21 Oct 2026 07:28:00 GMT")))
            sampleClient "/addresses" noOptions [])
    = Throw (RateLimitError "Rate limit exceeded" NaN)
  /\ NaN <> Int 60.
Proof.
  repeat split; try reflexivity. discriminate.
Qed.

(* ================================================================= *)
(** ** Generic API failures: the message *)

Lemma string_of_Z_head (z : Z) :
  exists c rest, string_of_Z z = String c rest /\ (nat_of_ascii c <= 57)%nat.
Proof.
  unfold string_of_Z, NilZero.string_of_int.
  destruct (Z.to_int z) as [d | d].
  - destruct d; simpl; eexists; eexists; split; try reflexivity;
      apply Nat.leb_le; reflexivity.
  - eexists; eexists; split; [reflexivity | apply Nat.leb_le; reflexivity].
Qed.

(** A key that starts with a letter is no array index. *)
Lemma indexProp_named (c : ascii) (k : string) (items : list value) (i : Z) :
  (57 < nat_of_ascii c)%nat -> indexProp (String c k) items i = VUndefined.
Proof.
  intros Hc. revert i. induction items as [| x rest IH]; intros i; simpl.
  - reflexivity.
  - destruct (string_of_Z_head i) as (c' & rest' & -> & Hc').
    simpl. destruct (Ascii.eqb_spec c c') as [-> | _]; [lia | apply IH].
Qed.

Lemma getProp_named_non_object (v : value) (c : ascii) (k : string) :
  (57 < nat_of_ascii c)%nat -> String c k <> "length" ->
  match v with VObject _ | VUndefined | VNull => False | _ => True end ->
  getProp v (String c k) = Ok VUndefined.
Proof.
  intros Hc Hlen Hv.
  destruct v; try contradiction; try reflexivity; unfold getProp;
    destruct (String.eqb_spec (String c k) "length"); try contradiction;
    now rewrite indexProp_named.
Qed.

Lemma pickErrorMessage_non_object (v fallback : value) :
  match v with VObject _ | VUndefined | VNull => False | _ => True end ->
  pickErrorMessage v fallback = Ok fallback.
Proof.
  intros Hv. unfold pickErrorMessage.
  assert (G : forall (c : ascii) (k : string),
             (57 <? nat_of_ascii c)%nat = true -> String c k <> "length" ->
             getProp v (String c k) = Ok VUndefined).
  { intros c k Hc Hk. apply getProp_named_non_object; auto.
    now apply Nat.ltb_lt. }
  rewrite (G "d"%char "etail"), (G "m"%char "essage"), (G "e"%char "rror");
    try reflexivity; discriminate.
Qed.

Lemma apiErrorMessage_by_truthiness (r : Response) :
  apiErrorMessage r = messageByTruthiness r.
Proof.
  unfold apiErrorMessage, messageByTruthiness.
  destruct (responseBody r) as [t | v]; [reflexivity |].
  set (fallback := VString _).
  destruct v as [ | | b | n | s | items | props];
    try reflexivity;
    try (now rewrite pickErrorMessage_non_object).
  unfold pickErrorMessage, firstTruthy, own, or_else. simpl.
  destruct (truthy (match lookup "detail" props with
                    | Some x => x | None => VUndefined end)); [reflexivity |].
  destruct (truthy (match lookup "message" props with
                    | Some x => x | None => VUndefined end)); [reflexivity |].
  destruct (truthy (match lookup "error" props with
                    | Some x => x | None => VUndefined end)); reflexivity.
Qed.

(** C3 fails as stated: a 500 whose body is
    {detail: (the empty string), message: boom} contains [detail], yet
    the failure's message is boom, the value of [message]. *)
Lemma C3_counterexample : ~ C3_as_stated.
Proof.
  intros H.
  specialize (H (fetchAlways
                   (jsonReply 500 (VObject [("detail", VString EmptyString);
                                            ("message", VString "boom")])))
                sampleClient "shippo_test_0123" "/addresses" noOptions []
                _ eq_refl eq_refl eq_refl).
  vm_compute in H. specialize (H ltac:(discriminate) ltac:(discriminate)
                                 ltac:(discriminate)).
  discriminate H.
Qed.

(** C3, amended.  For every response whose status is not 2xx and is
    none of 429, 401 and 403, [request] makes the one network call and
    throws an API failure that carries the status code and whose message
    is: for a body that parses to a JSON object, the value of [detail]
    if it is truthy, else that of [message] if truthy, else that of
    [error] if truthy, else API error: <status>; for any other body
    (not JSON, or JSON that is no object), API error: <status>. *)
Theorem C3_api_error_message
    (fetch : Fetch) (this : ShippoClientImpl) (key endpoint : string)
    (options : RequestInit) (log : NetLog) (r : Response) :
  orUndefined (apiKey (credentials this)) = Some key ->
  fetch (fst (outbound this key endpoint options))
        (snd (outbound this key endpoint options)) = Responds r ->
  ok r = false -> status r <> 429 -> status r <> 401 -> status r <> 403 ->
  request fetch this endpoint options log
    = (Throw (ShippoApiError (messageByTruthiness r) (status r)),
       (log ++ [outbound this key endpoint options])%list).
Proof.
  intros Hkey Hfetch Hok H429 H401 H403.
  rewrite <- apiErrorMessage_by_truthiness.
  now apply request_api_error.
Qed.

Lemma C3_api_error_message_witness :
  request (fetchAlways
             (jsonReply 500 (VObject [("detail", VString EmptyString);
                                      ("message", VString "boom")])))
          sampleClient "/addresses" noOptions []
  = (Throw (ShippoApiError (VString "boom") 500),
     [outbound sampleClient "shippo_test_0123" "/addresses" noOptions]).
Proof.
  exact (C3_api_error_message
           (fetchAlways
              (jsonReply 500 (VObject [("detail", VString EmptyString);
                                       ("message", VString "boom")])))
           sampleClient "shippo_test_0123" "/addresses" noOptions []
           _ eq_refl eq_refl eq_refl
           ltac:(discriminate) ltac:(discriminate) ltac:(discriminate)).
Defined.

Example api_error_detail_wins :
  fst (request (fetchAlways
                  (jsonReply 422 (VObject [("message", VString "second");
                                           ("detail", VString "first")])))
         sampleClient "/parcels" noOptions [])
  = Throw (ShippoApiError (VString "first") 422).
Proof. reflexivity. Qed.

Example api_error_not_json :
  fst (request (fetchAlways {| status := 502; responseHeaders := [];
                               responseBody := NotJson "<html>Bad Gateway</html>" |})
         sampleClient "/parcels" noOptions [])
  = Throw (ShippoApiError (VString "API error: 502") 502).
Proof. reflexivity. Qed.

Example api_error_json_null :
  fst (request (fetchAlways (jsonReply 500 VNull))
         sampleClient "/parcels" noOptions [])
  = Throw (ShippoApiError (VString "API error: 500") 500).
Proof. reflexivity. Qed.

(* ================================================================= *)
(** ** The default parcel template: 404 is no template *)

Lemma getDefaultParcelTemplate_success
    (fetch : Fetch) (this : ShippoClientImpl) (log log' : NetLog) (v : value) :
  request fetch this parcelTemplatePath noOptions log = (Ok v, log') ->
  getDefaultParcelTemplate fetch this log = (Ok v, log').
Proof.
  intros H. unfold getDefaultParcelTemplate, tryCatch.
  fold parcelTemplatePath. now rewrite H.
Qed.

(** C2 fails as stated: a 200 response whose JSON body is null makes
    the request succeed with null, and the method returns that null
    although nothing was thrown. *)
Lemma C2_counterexample :
  fst (request (fetchAlways (jsonReply 200 VNull)) sampleClient
         parcelTemplatePath noOptions []) = Ok VNull
  /\ fst (getDefaultParcelTemplate (fetchAlways (jsonReply 200 VNull))
            sampleClient []) = Ok VNull
  /\ ~ C2_as_stated.
Proof.
  split; [reflexivity | split; [reflexivity | ]].
  intros H.
  destruct (H (fetchAlways (jsonReply 200 VNull)) sampleClient []) as [[Hnull _] _].
  destruct (Hnull eq_refl) as (e & He & _). discriminate He.
Qed.

(** C2, amended.  getDefaultParcelTemplate makes the network calls of
    its request and no other; a value the request returns is returned
    unchanged; a 404 API failure the request throws becomes null; every
    other failure is thrown unchanged.  So the result is null exactly
    when the request throws a 404 API failure or itself returns null. *)
Theorem C2_default_parcel_template_null_cases
    (fetch : Fetch) (this : ShippoClientImpl) (log : NetLog) :
  snd (getDefaultParcelTemplate fetch this log)
  = snd (request fetch this parcelTemplatePath noOptions log)
  /\ (forall v,
        fst (request fetch this parcelTemplatePath noOptions log) = Ok v ->
        fst (getDefaultParcelTemplate fetch this log) = Ok v)
  /\ (forall e,
        fst (request fetch this parcelTemplatePath noOptions log) = Throw e ->
        isNotFound e ->
        fst (getDefaultParcelTemplate fetch this log) = Ok VNull)
  /\ (forall e,
        fst (request fetch this parcelTemplatePath noOptions log) = Throw e ->
        ~ isNotFound e ->
        fst (getDefaultParcelTemplate fetch this log) = Throw e)
  /\ (fst (getDefaultParcelTemplate fetch this log) = Ok VNull
      <-> fst (request fetch this parcelTemplatePath noOptions log) = Ok VNull
          \/ exists e,
               fst (request fetch this parcelTemplatePath noOptions log) = Throw e
               /\ isNotFound e).
Proof.
  unfold getDefaultParcelTemplate, tryCatch, isNotFound.
  fold parcelTemplatePath.
  destruct (request fetch this parcelTemplatePath noOptions log) as [[v | e] log'].
  - simpl. repeat split; try congruence.
    + intros Hv. left. exact Hv.
    + intros [Hv | (e & He & _)]; [exact Hv | discriminate He].
  - destruct e as [m | m n | m code | name m | v]; simpl;
      try (repeat split; try congruence;
           [ intros e He [m' Hm]; congruence
           | intros [Hv | (e & He & m' & Hm)]; congruence ]).
    destruct (Z.eqb_spec code 404) as [-> | Hne]; unfold ret, throw; simpl.
    + repeat split; try congruence.
      * intros e He Hn. exfalso. apply Hn. exists m. congruence.
      * intros _. right. eexists. split; [reflexivity | now exists m].
    + repeat split; try congruence.
      * intros e He [m' Hm]. congruence.
      * intros [Hv | (e & He & m' & Hm)]; congruence.
Qed.

Lemma C2_default_parcel_template_witness :
  fst (getDefaultParcelTemplate
         (fetchAlways (jsonReply 404 (VObject [("detail", VString "Not found.")])))
         sampleClient [])
  = Ok VNull.
Proof.
  apply (proj1 (proj2 (proj2 (C2_default_parcel_template_null_cases
           (fetchAlways (jsonReply 404 (VObject [("detail", VString "Not found.")])))
           sampleClient [])))
           (ShippoApiError (VString "Not found.") 404) eq_refl).
  exists (VString "Not found."). reflexivity.
Defined.

Example default_parcel_template_500_propagates :
  fst (getDefaultParcelTemplate (fetchAlways (jsonReply 500 VNull)) sampleClient [])
  = Throw (ShippoApiError (VString "API error: 500") 500).
Proof. reflexivity. Qed.

Example default_parcel_template_auth_propagates :
  fst (getDefaultParcelTemplate (fetchAlways (jsonReply 401 VNull)) sampleClient [])
  = Throw (AuthenticationError "Authentication failed. Check your Shippo API key.").
Proof. reflexivity. Qed.

Example default_parcel_template_rate_limit_propagates :
  fst (getDefaultParcelTemplate (fetchAlways (rateLimited (Some "30")))
         sampleClient [])
  = Throw (RateLimitError "Rate limit exceeded" (Int 30)).
Proof. reflexivity. Qed.

(* ================================================================= *)
(** ** testConnection *)

(** C8.  testConnection never throws.  Whatever the underlying
    list-addresses request does, it returns an object
    {connected, message}; [connected] is true exactly when the request
    succeeds, and when the request throws an [Error] the message is
    that error's message. *)
Theorem C8_testConnection_never_throws
    (fetch : Fetch) (this : ShippoClientImpl) (log : NetLog) :
  let underlying := request fetch this connectionPath noOptions log in
  exists connected message,
    testConnection fetch this log
      = (Ok (VObject [("connected", VBool connected); ("message", message)]),
         snd underlying)
    /\ (connected = true <-> exists v, fst underlying = Ok v)
    /\ (forall e, fst underlying = Throw e ->
          connected = false
          /\ message = (if instanceofError e then errorMessage e
                        else VString "Connection failed")).
Proof.
  cbv zeta. unfold testConnection, tryCatch, bind. fold connectionPath.
  destruct (request fetch this connectionPath noOptions log) as [[v | e] log'];
    simpl.
  - exists true, (VString "Successfully connected to Shippo API").
    split; [reflexivity | split].
    + split; eauto.
    + intros e He. discriminate He.
  - exists false, (if instanceofError e then errorMessage e
                   else VString "Connection failed").
    split; [reflexivity | split].
    + split; [discriminate | intros [v Hv]; discriminate Hv].
    + intros e' He'. inversion He'. subst e'. split; reflexivity.
Qed.

Example testConnection_down :
  fst (testConnection fetchDown sampleClient [])
  = Ok (VObject [("connected", VBool false); ("message", VString "fetch failed")]).
Proof. reflexivity. Qed.

(* ================================================================= *)
(** ** A missing key: no network call *)

(** Without a usable key every method but testConnection throws the
    authentication failure of getAuthHeaders and leaves the network log
    as it was; testConnection reports the same failure as a value. *)
Lemma invoke_without_key
    (fetch : Fetch) (this : ShippoClientImpl) (call : ClientCall) (log : NetLog) :
  orUndefined (apiKey (credentials this)) = None ->
  invoke fetch this call log
  = (match call with
     | CallTestConnection =>
         Ok (VObject [("connected", VBool false);
                      ("message", VString noCredentialsMessage)])
     | _ => Throw (AuthenticationError noCredentialsMessage)
     end, log).
Proof.
  intros Hkey.
  destruct call; unfold_client; rewrite (request_no_key _ _ _ _ _ Hkey);
    reflexivity.
Qed.

(** C4 fails as stated: testConnection, called without a key, catches
    the failure and returns {connected: false, message}. *)
Lemma C4_counterexample : ~ C4_as_stated.
Proof.
  intros H.
  destruct (H fetchDown {| apiKey := None; baseUrl := None |}
              CallTestConnection [] eq_refl) as [m Hm].
  discriminate Hm.
Qed.

(** C4, amended.  With credentials whose apiKey is undefined, every
    client operation other than testConnection throws the
    authentication failure, and testConnection returns
    {connected: false, message} with that failure's message; in each
    case no network call is made: the network log is left as it was. *)
Theorem C4_missing_key_no_network_call
    (fetch : Fetch) (creds : TenantCredentials) (call : ClientCall)
    (log : NetLog) :
  apiKey creds = None ->
  let result := invoke fetch (createShippoClient creds) call log in
  (call <> CallTestConnection ->
     fst result = Throw (AuthenticationError noCredentialsMessage))
  /\ (call = CallTestConnection ->
        fst result = Ok (VObject [("connected", VBool false);
                                  ("message", VString noCredentialsMessage)]))
  /\ snd result = log
  /\ networkCalls (snd result) = networkCalls log.
Proof.
  intros Hkey. cbv zeta.
  rewrite invoke_without_key by (simpl; now rewrite Hkey).
  repeat split.
  - intros Hcall. destruct call; try reflexivity. contradiction.
  - now intros ->.
Qed.

Lemma C4_missing_key_witness :
  fst (invoke fetchDown
         (createShippoClient {| apiKey := None; baseUrl := None |})
         (CallGetAddress "addr_1") [])
  = Throw (AuthenticationError noCredentialsMessage)
  /\ networkCalls
       (snd (invoke fetchDown
               (createShippoClient {| apiKey := None; baseUrl := None |})
               (CallGetAddress "addr_1") [])) = 0%nat.
Proof.
  pose proof (C4_missing_key_no_network_call fetchDown
                {| apiKey := None; baseUrl := None |}
                (CallGetAddress "addr_1") [] eq_refl) as (Hthrow & _ & _ & Hcalls).
  split; [apply Hthrow; discriminate | exact Hcalls].
Defined.

(* ================================================================= *)
(** ** An empty key header *)

(** C9 fails as stated, in its last part: testConnection with an
    empty-string key returns {connected: false, message}. *)
Lemma C9_counterexample : ~ C9_as_stated.
Proof.
  intros (_ & _ & H).
  destruct (H fetchDown {| apiKey := Some EmptyString; baseUrl := None |}
              CallTestConnection [] eq_refl) as [m Hm].
  discriminate Hm.
Qed.

(** C9, amended.  parseTenantCredentials maps an empty
    X-Shippo-API-Key header to an undefined apiKey, as it does an absent
    one; the key check of getAuthHeaders rejects the empty string as a
    missing key; and with an empty-string key every operation other
    than testConnection throws the authentication failure, while
    testConnection returns {connected: false, message}; in each case
    the network log is left as it was. *)
Theorem C9_empty_key_is_missing_key :
  (forall hs, Headers_get hs "X-Shippo-API-Key" = Some EmptyString ->
              apiKey (parseTenantCredentials hs) = None)
  /\ (forall hs, Headers_get hs "X-Shippo-API-Key" = None ->
                 apiKey (parseTenantCredentials hs) = None)
  /\ (forall this, apiKey (credentials this) = Some EmptyString ->
        getAuthHeaders this = Throw (AuthenticationError noCredentialsMessage))
  /\ (forall (fetch : Fetch) (creds : TenantCredentials) (call : ClientCall)
             (log : NetLog),
        apiKey creds = Some EmptyString ->
        invoke fetch (createShippoClient creds) call log
        = (match call with
           | CallTestConnection =>
               Ok (VObject [("connected", VBool false);
                            ("message", VString noCredentialsMessage)])
           | _ => Throw (AuthenticationError noCredentialsMessage)
           end, log)).
Proof.
  repeat split.
  - intros hs H. unfold parseTenantCredentials. simpl. now rewrite H.
  - intros hs H. unfold parseTenantCredentials. simpl. now rewrite H.
  - intros this H. unfold getAuthHeaders. now rewrite H.
  - intros fetch creds call log H.
    apply invoke_without_key. simpl. now rewrite H.
Qed.

(** The worker turns such a request away as well: validateCredentials
    throws for the credentials of an empty key header. *)
Lemma empty_key_header_fails_validation (hs : list (string * string)) :
  Headers_get hs "X-Shippo-API-Key" = Some EmptyString ->
  validateCredentials (parseTenantCredentials hs)
  = Throw (OtherError "Error"
             "Missing credentials. Provide X-Shippo-API-Key header.").
Proof.
  intros H. unfold validateCredentials, parseTenantCredentials. simpl.
  now rewrite H.
Qed.

Example empty_key_header_no_call :
  let creds := parseTenantCredentials [("x-shippo-api-key", EmptyString)] in
  apiKey creds = None
  /\ invoke fetchDown (createShippoClient creds) (CallListParcels None) []
     = (Throw (AuthenticationError noCredentialsMessage), []).
Proof. split; reflexivity. Qed.

(* ================================================================= *)
(** ** The query-string builder *)

Lemma URLSearchParams_set_fresh (name val : string) (q : URLSearchParams) :
  ~ In name (map fst q) ->
  URLSearchParams_set name val q = (q ++ [(name, val)])%list.
Proof.
  induction q as [| [n v] rest IH]; simpl; intros Hfresh.
  - reflexivity.
  - destruct (String.eqb_spec name n) as [-> | Hne].
    + exfalso. apply Hfresh. now left.
    + f_equal. apply IH. intros Hin. apply Hfresh. now right.
Qed.

Lemma addParam_fresh (q : URLSearchParams) (kv : string * value) :
  ~ In (fst kv) (map fst q) ->
  addParam q kv
  = if isPresent (snd kv) then (q ++ [(fst kv, ToString (snd kv))])%list else q.
Proof.
  intros Hfresh. unfold addParam.
  destruct (snd kv) eqn:E; simpl; try reflexivity;
    rewrite URLSearchParams_set_fresh by assumption; reflexivity.
Qed.

Lemma fold_addParam (entries : object) :
  forall q : URLSearchParams,
    NoDup (map fst entries) ->
    (forall k, In k (map fst entries) -> ~ In k (map fst q)) ->
    fold_left addParam entries q
    = (q ++ map (fun kv => (fst kv, ToString (snd kv)))
              (filter (fun kv => isPresent (snd kv)) entries))%list.
Proof.
  induction entries as [| kv rest IH]; intros q Hnodup Hfresh; simpl.
  - now rewrite app_nil_r.
  - inversion Hnodup as [| k ks Hnotin Hrest]; subst.
    rewrite addParam_fresh by (apply Hfresh; now left).
    destruct (isPresent (snd kv)).
    + rewrite IH; trivial.
      * simpl. now rewrite <- app_assoc.
      * intros k Hk. rewrite map_app, in_app_iff. simpl.
        intros [Hq | [Hq | []]].
        -- apply (Hfresh k); [now right | assumption].
        -- congruence.
    + apply IH; trivial. intros k Hk. apply Hfresh. now right.
Qed.

Lemma isEmpty_append (a b : string) :
  isEmpty (a ++ b) = isEmpty a && isEmpty b.
Proof. destruct a; reflexivity. Qed.

Lemma join_nonempty (sep p : string) (rest : list string) :
  isEmpty p = false -> isEmpty (join sep (p :: rest)) = false.
Proof.
  intros Hp. destruct rest; simpl; [assumption |].
  now rewrite isEmpty_append, Hp.
Qed.

Lemma urlencodePair_nonempty (kv : string * string) :
  isEmpty (urlencodePair kv) = false.
Proof.
  unfold urlencodePair. rewrite isEmpty_append. simpl.
  now rewrite andb_false_r.
Qed.

Lemma URLSearchParams_toString_empty (q : URLSearchParams) :
  isEmpty (URLSearchParams_toString q) = match q with [] => true | _ => false end.
Proof.
  destruct q as [| kv rest]; [reflexivity |].
  unfold URLSearchParams_toString. simpl map.
  apply join_nonempty, urlencodePair_nonempty.
Qed.

(** C5.  For the entries of an object (its keys are distinct), the
    builder returns what [queryAsSpecified] describes: it drops every
    parameter whose value is null or undefined, stringifies and
    serialises the others in the order of the entries, and returns the
    empty string when none is left, the serialised parameters after a
    question mark otherwise; an absent input gives the empty string;
    {results: 20, page: undefined} gives ?results=20 and {} gives the
    empty string. *)
Theorem C5_buildQueryString (entries : object) :
  NoDup (map fst entries) ->
  buildQueryString (Some entries) = queryAsSpecified (Some entries)
  /\ buildQueryString None = queryAsSpecified None
  /\ buildQueryString (Some [("results", VNumber (Int 20)); ("page", VUndefined)])
     = "?results=20"
  /\ buildQueryString (Some []) = EmptyString.
Proof.
  intros Hnodup. repeat split; try reflexivity.
  unfold buildQueryString, queryAsSpecified.
  change (fold_left _ entries []) with (fold_left addParam entries []).
  rewrite fold_addParam by (trivial; intros k _ []).
  simpl app. rewrite URLSearchParams_toString_empty.
  unfold URLSearchParams_toString. rewrite map_map.
  destruct (filter (fun kv => isPresent (snd kv)) entries); reflexivity.
Qed.

Lemma C5_buildQueryString_witness :
  buildQueryString (Some [("carrier", VString "usps & co"); ("results", VNumber (Int 5));
                          ("page", VNull); ("include", VUndefined)])
  = "?carrier=usps+%26+co&results=5".
Proof.
  refine (proj1 (C5_buildQueryString
                   [("carrier", VString "usps & co"); ("results", VNumber (Int 5));
                    ("page", VNull); ("include", VUndefined)] _)).
  repeat constructor; simpl; intuition discriminate.
Defined.

(* ================================================================= *)
(** ** createLiveRate unwraps the envelope *)

(** C6.  When the remote side answers the live-rate request with a
    success whose body is an object with [results: rs], createLiveRate
    returns [rs] itself, after the one network call. *)
Theorem C6_createLiveRate_unwraps
    (fetch : Fetch) (this : ShippoClientImpl) (key : string) (input : value)
    (log : NetLog) (r : Response) (props : object) (rs : value) :
  let options := {| method := Some "POST"; body := JSON_stringify input;
                    headers := None |} in
  orUndefined (apiKey (credentials this)) = Some key ->
  fetch (fst (outbound this key "/live-rates" options))
        (snd (outbound this key "/live-rates" options)) = Responds r ->
  ok r = true -> status r <> 204 ->
  responseBody r = Json (VObject props) ->
  lookup "results" props = Some rs ->
  createLiveRate fetch this input log
    = (Ok rs, (log ++ [outbound this key "/live-rates" options])%list).
Proof.
  cbv zeta. intros Hkey Hfetch Hok H204 Hbody Hrs.
  unfold createLiveRate, send, bind.
  rewrite (request_success fetch this _ _ log key Hkey r Hfetch _ Hok H204 Hbody).
  unfold lift, getProp. now rewrite Hrs.
Qed.

Lemma C6_createLiveRate_witness :
  fst (createLiveRate
         (fetchAlways (jsonReply 200 (VObject [("results", uspsPriority)])))
         sampleClient (VObject [("address_from", VString "addr_1")]) [])
  = Ok uspsPriority.
Proof.
  exact (f_equal fst
           (C6_createLiveRate_unwraps
              (fetchAlways (jsonReply 200 (VObject [("results", uspsPriority)])))
              sampleClient "shippo_test_0123"
              (VObject [("address_from", VString "addr_1")]) []
              _ [("results", uspsPriority)] uspsPriority
              eq_refl eq_refl eq_refl ltac:(discriminate) eq_refl eq_refl)).
Defined.

(* ================================================================= *)
(** ** The tool boundary *)


(** The text of an envelope is a string, never [undefined]. *)
Lemma errorEnvelope_text (message : string) (details : value) :
  exists json, content (errorEnvelope message details)
               = [{| type := "text"; text := Some json |}].
Proof. unfold errorEnvelope. simpl. eexists. reflexivity. Qed.






Example every_tool_is_registered : List.length sampleTools = 57%nat.
Proof. reflexivity. Qed.

Example batch_tool_catches_bad_arguments :
  fst (handler fetchDown sampleClient
         (shippo_create_batch sampleErrorInfo sampleRetryable)
         [("batch_shipments", VArray [VNull])] [])
  = Ok (errorEnvelope
          "Error: Cannot read properties of null (reading 'shipment')"
          (VObject [("message",
                     VString "Cannot read properties of null (reading 'shipment')")])).
Proof. reflexivity. Qed.

(* ================================================================= *)
(** ** Empty result lists *)

Lemma String_of_primitive (v : value) :
  isPrimitive v = true -> String_of v = Ok (ToString v).
Proof. destruct v; simpl; congruence. Qed.

(** The one error of a conversion to text. *)
Lemma String_of_TypeError (v : value) (e : JsError) :
  String_of v = Throw e ->
  e = OtherError "TypeError" "Cannot convert object to primitive value".
Proof.
  revert e. induction v as [ | | b | n | s | items IH | props _]
    using value_induction; intros e; simpl; try discriminate.
  - induction IH as [| x rest Hx _ IHrest]; [discriminate |].
    intros H.
    match type of H with
    | context [obind (obind ?first _) _] =>
        destruct first as [s' | e'] eqn:E
    end.
    + cbn [obind] in H. apply IHrest.
      match type of H with
      | context [obind (obind ?others _) _] =>
          destruct others as [ss | e''] eqn:E'; cbn [obind] in *;
          [discriminate H | exact H]
      end.
    + cbn [obind] in H. injection H as <-.
      destruct x; try discriminate E; now apply Hx.
  - destruct (lookup "toString" props); [congruence | discriminate].
Qed.

Lemma formatPaginatedWith_empty
    (tableFor : string -> list value -> Outcome string)
    (data : PaginatedResponse) (entityType total : string) :
  results data = [] ->
  String_of (count data) = Ok total ->
  formatPaginatedWith tableFor data entityType
  = Ok (join newline (emptyPageLines entityType total (next data))).
Proof.
  intros Hempty Htotal.
  unfold formatPaginatedWith, paginatedHeader, emptyPageLines.
  rewrite Htotal, Hempty. cbn [obind]. simpl List.length. cbv iota beta.
  change (0 =? 0)%nat with true. cbv iota.
  change (string_of_Z (Z.of_nat 0)) with "0".
  now rewrite <- !app_assoc.
Qed.

(** The count line is built first: a count that cannot be converted
    ends the formatter before the results are looked at. *)
Lemma formatPaginatedWith_unconvertible
    (tableFor : string -> list value -> Outcome string)
    (data : PaginatedResponse) (entityType : string) (e : JsError) :
  String_of (count data) = Throw e ->
  formatPaginatedWith tableFor data entityType = Throw e.
Proof.
  intros Hcount. unfold formatPaginatedWith, paginatedHeader.
  now rewrite Hcount.
Qed.

(** C10 fails as stated: a page with no results whose count is an object
    with a property named toString makes the formatter throw a
    TypeError instead of emitting the lines of an empty page. *)
Lemma C10_counterexample :
  formatAsMarkdown unconvertibleCountPage "shipments"
  = Throw (OtherError "TypeError" "Cannot convert object to primitive value")
  /\ ~ C10_as_stated.
Proof.
  split; [reflexivity | ].
  intros H.
  destruct (H {| count := VObject [("toString", VNumber (Int 1))];
                 next := VUndefined; previous := VUndefined; results := [] |}
              "shipments" eq_refl) as (total & Htotal).
  specialize (Htotal entityTable). discriminate Htotal.
Qed.

(** C10, amended.  For a page whose results are empty and whose count
    converts to text (as every count that is neither an object nor an
    array does), the Markdown formatter returns the heading and count
    lines followed by the remark _No items found._, whatever table
    formatter the entity type would select (none is called: the result
    is the same for every dispatch, also one that always throws); the
    same holds through formatAsMarkdown.  A count whose conversion
    throws makes the formatter throw that error, again whatever the
    dispatch.  The generic table formatter returns _No items_ for an
    empty array without reading an element, and reads the first element
    of a non-empty one. *)
Theorem C10_empty_results_skip_tables
    (data : PaginatedResponse) (entityType : string) :
  results data = [] ->
  (forall total,
     String_of (count data) = Ok total ->
     (forall tableFor,
        formatPaginatedWith tableFor data entityType
        = Ok (join newline (emptyPageLines entityType total (next data))))
     /\ formatPaginatedAsMarkdown data entityType
        = Ok (join newline (emptyPageLines entityType total (next data))))
  /\ (isPrimitive (count data) = true ->
      formatPaginatedAsMarkdown data entityType
      = Ok (join newline
              (emptyPageLines entityType (ToString (count data)) (next data))))
  /\ (forall e,
        String_of (count data) = Throw e ->
        forall tableFor, formatPaginatedWith tableFor data entityType = Throw e)
  /\ (forall props total,
        lookup "results" props = Some (VArray []) ->
        String_of (own props "count") = Ok total ->
        formatAsMarkdown (VObject props) entityType
        = Ok (join newline
                (emptyPageLines entityType total (own props "next"))))
  /\ formatGenericTable [] = Ok "_No items_"
  /\ (forall first rest e,
        Object_keys first = Throw e ->
        formatGenericTable (first :: rest) = Throw e).
Proof.
  intros Hempty. repeat split.
  - intros tableFor. now apply formatPaginatedWith_empty.
  - now apply formatPaginatedWith_empty.
  - intros Hprim. apply formatPaginatedWith_empty; [exact Hempty | ].
    now apply String_of_primitive.
  - intros e Hcount tableFor. now apply formatPaginatedWith_unconvertible.
  - intros props total Hres Hcount. unfold formatAsMarkdown, isPaginatedResponse.
    rewrite Hres. unfold formatPaginatedAsMarkdown.
    now apply formatPaginatedWith_empty.
  - intros first rest e Hkeys. unfold formatGenericTable.
    now rewrite Hkeys.
Qed.

Lemma C10_empty_results_witness :
  formatPaginatedAsMarkdown emptyShipmentsPage "shipments"
  = Ok (join newline ["## Shipments"; EmptyString;
                      "**Total:** 0 | **Showing:** 0"; EmptyString;
                      "_No items found._"]).
Proof.
  exact (proj2 (proj1 (C10_empty_results_skip_tables
                         emptyShipmentsPage "shipments" eq_refl)
                  "0" eq_refl)).
Defined.

(** A shipment without addresses makes the shipments table throw, so
    the guard on empty results is what keeps the empty page safe. *)
Example shipments_table_reads_each_row :
  exists e,
    formatPaginatedAsMarkdown
      {| count := VNumber (Int 1); next := VNull; previous := VNull;
         results := [VObject [("object_id", VString "shp_1")]] |} "shipments"
    = Throw e.
Proof. eexists. reflexivity. Qed.

Example generic_table_reads_first :
  formatGenericTable [VNull]
  = Throw (OtherError "TypeError" "Cannot convert undefined or null to object").
Proof. reflexivity. Qed.

Example list_addresses_markdown :
  fst (handler
         (fetchAlways
            (jsonReply 200
               (VObject [("count", VNumber (Int 5));
                         ("next", VString "https://api.goshippo.com/addresses?page=2");
                         ("results",
                          VArray [VObject [("object_id", VString "addr_1");
                                           ("name", VString "Jane Doe");
                                           ("street1", VString "1 Main St");
                                           ("city", VString "Springfield");
                                           ("state", VString "IL");
                                           ("zip", VString "62701");
                                           ("country", VString "US")]])])))
         sampleClient (shippo_list_addresses sampleErrorInfo sampleRetryable)
         [("results", VNumber (Int 1)); ("format", VString "markdown")] [])
  = Ok (textResponse
          (Some (join newline
                   ["## Addresses"; EmptyString;
                    "**Total:** 5 | **Showing:** 1";
                    "**Next page available**"; EmptyString;
                    "| ID | Name | Address | City | State | ZIP | Country |";
                    "|---|---|---|---|---|---|---|";
                    "| addr_1 | Jane Doe | 1 Main St | Springfield | IL | 62701 | US |"]))).
Proof. reflexivity. Qed.


(* ================================================================= *)
(** ** Further properties of the request primitive *)

Lemma request_log_with_key
    (fetch : Fetch) (this : ShippoClientImpl) (key endpoint : string)
    (options : RequestInit) (log : NetLog) :
  orUndefined (apiKey (credentials this)) = Some key ->
  snd (request fetch this endpoint options log)
  = (log ++ [outbound this key endpoint options])%list.
Proof.
  intros Hkey. unfold request, bind, lift, getAuthHeaders, doFetch, outbound.
  rewrite Hkey.
  destruct (fetch _ _) as [r | e]; [| reflexivity].
  destruct (status r =? 429); [reflexivity |].
  destruct ((status r =? 401) || (status r =? 403)); [reflexivity |].
  destruct (negb (ok r)); [reflexivity |].
  destruct (status r =? 204); [reflexivity |].
  unfold Response_json. destruct (responseBody r); reflexivity.
Qed.

(** X1.  A client that has a key makes exactly one network call per
    request, whatever the remote side does: the log grows by the one
    entry for the composed URL and the merged options, also when fetch
    rejects or the response is classified as a failure. *)
Theorem X1_request_makes_exactly_one_call
    (fetch : Fetch) (this : ShippoClientImpl) (key endpoint : string)
    (options : RequestInit) (log : NetLog) :
  orUndefined (apiKey (credentials this)) = Some key ->
  snd (request fetch this endpoint options log)
  = (log ++ [outbound this key endpoint options])%list.
Proof. apply request_log_with_key. Qed.

Lemma X1_request_one_call_witness :
  networkCalls (snd (request fetchDown sampleClient "/parcels" noOptions [])) = 1%nat.
Proof.
  exact (f_equal networkCalls
           (X1_request_makes_exactly_one_call fetchDown sampleClient
              "shippo_test_0123" "/parcels" noOptions [] eq_refl)).
Defined.

(** X2.  A response with status 401 or 403 is an authentication
    failure with the fixed message, whatever its body and headers. *)
Theorem X2_request_401_403_is_authentication_failure
    (fetch : Fetch) (this : ShippoClientImpl) (key endpoint : string)
    (options : RequestInit) (log : NetLog) (r : Response) :
  orUndefined (apiKey (credentials this)) = Some key ->
  fetch (fst (outbound this key endpoint options))
        (snd (outbound this key endpoint options)) = Responds r ->
  status r = 401 \/ status r = 403 ->
  fst (request fetch this endpoint options log)
  = Throw (AuthenticationError
             "Authentication failed. Check your Shippo API key.").
Proof.
  intros Hkey Hfetch Hs.
  now rewrite (request_401_403 fetch this endpoint options log key Hkey r Hfetch Hs).
Qed.

Lemma X2_request_403_witness :
  fst (request (fetchAlways (jsonReply 403 (VObject [("detail", VString "Forbidden")])))
         sampleClient "/parcels" noOptions [])
  = Throw (AuthenticationError
             "Authentication failed. Check your Shippo API key.").
Proof.
  exact (X2_request_401_403_is_authentication_failure
           (fetchAlways (jsonReply 403 (VObject [("detail", VString "Forbidden")])))
           sampleClient "shippo_test_0123" "/parcels" noOptions [] _
           eq_refl eq_refl (or_intror eq_refl)).
Defined.

(** X3.  When a request succeeds: with a key, [request] returns [v]
    exactly when fetch answers with a 2xx response that either has
    status 204, and then [v] is undefined whatever the body, or has a
    body that parses as JSON to [v]. *)
Theorem X3_request_succeeds_iff
    (fetch : Fetch) (this : ShippoClientImpl) (key endpoint : string)
    (options : RequestInit) (log : NetLog) (v : value) :
  orUndefined (apiKey (credentials this)) = Some key ->
  (fst (request fetch this endpoint options log) = Ok v
   <-> exists r,
         fetch (fst (outbound this key endpoint options))
               (snd (outbound this key endpoint options)) = Responds r
         /\ ok r = true
         /\ (status r = 204 /\ v = VUndefined
             \/ status r <> 204 /\ responseBody r = Json v)).
Proof.
  intros Hkey. split.
  - unfold request, bind, lift, getAuthHeaders, doFetch, outbound.
    rewrite Hkey. simpl fst. simpl snd.
    destruct (fetch _ _) as [r | e] eqn:Hfetch; [| discriminate].
    destruct (status r =? 429); [discriminate |].
    destruct ((status r =? 401) || (status r =? 403)); [discriminate |].
    destruct (ok r) eqn:Hok; [| discriminate]. simpl negb. cbv iota.
    destruct (Z.eqb_spec (status r) 204) as [H204 | H204].
    + intros H. inversion H. exists r.
      split; [reflexivity |]. split; [exact Hok |]. left. now split.
    + unfold Response_json. destruct (responseBody r) as [t | w] eqn:Hbody;
        [discriminate |].
      intros H. inversion H. subst w. exists r.
      split; [reflexivity |]. split; [exact Hok |]. right. now split.
  - intros (r & Hfetch & Hok & [[H204 ->] | [H204 Hbody]]).
    + now rewrite (request_204 fetch this endpoint options log key Hkey r Hfetch H204).
    + now rewrite (request_success fetch this endpoint options log key Hkey r
                     Hfetch v Hok H204 Hbody).
Qed.

Lemma X3_request_204_witness :
  fst (request (fetchAlways {| status := 204; responseHeaders := [];
                               responseBody := NotJson EmptyString |})
         sampleClient "/service-groups/sg_1" noOptions [])
  = Ok VUndefined.
Proof.
  apply (proj2 (X3_request_succeeds_iff
                  (fetchAlways {| status := 204; responseHeaders := [];
                                  responseBody := NotJson EmptyString |})
                  sampleClient "shippo_test_0123" "/service-groups/sg_1"
                  noOptions [] VUndefined eq_refl)).
  eexists. split; [reflexivity |]. split; [reflexivity |]. left. split; reflexivity.
Defined.





(* ================================================================= *)
(** ** Every client method: one call, with the tenant's key *)

Ltac settle_request fetch this key log Hkey :=
  match goal with
  | |- context [request fetch this ?E ?O log] =>
      let H := fresh "Hlog" in
      pose proof (request_log_with_key fetch this key E O log Hkey) as H;
      destruct (request fetch this E O log) as [[?v | ?e] ?l];
      simpl in H; subst
  end.

Lemma invoke_log_with_key
    (fetch : Fetch) (this : ShippoClientImpl) (key : string)
    (call : ClientCall) (log : NetLog) :
  orUndefined (apiKey (credentials this)) = Some key ->
  exists endpoint verb body,
    snd (invoke fetch this call log)
    = (log ++ [authorizedCall this key endpoint verb body])%list.
Proof.
  intros Hkey.
  destruct call; unfold_client; settle_request fetch this key log Hkey;
    unfold authorizedCall, outbound, withHeaders; simpl;
    try (do 3 eexists; reflexivity).
  destruct e as [m | m n | m code | name m | w]; simpl;
    try (do 3 eexists; reflexivity).
  destruct (code =? 404); do 3 eexists; reflexivity.
Qed.

(** X5.  With a key, every method of the client makes exactly one
    network call, to a URL under the client's base URL, and that call
    carries exactly the two computed headers: the Authorization header
    with the tenant's key and the JSON content type. *)
Theorem X5_every_method_makes_one_authorized_call
    (fetch : Fetch) (this : ShippoClientImpl) (key : string)
    (call : ClientCall) (log : NetLog) :
  orUndefined (apiKey (credentials this)) = Some key ->
  exists endpoint verb body,
    snd (invoke fetch this call log)
    = (log ++ [authorizedCall this key endpoint verb body])%list.
Proof. apply invoke_log_with_key. Qed.

Lemma X5_one_authorized_call_witness :
  exists endpoint verb body,
    snd (invoke fetchDown sampleClient (CallGetParcel "parcel_1") [])
    = ([] ++ [authorizedCall sampleClient "shippo_test_0123" endpoint verb body])%list.
Proof.
  exact (X5_every_method_makes_one_authorized_call fetchDown sampleClient
           "shippo_test_0123" (CallGetParcel "parcel_1") [] eq_refl).
Defined.

Example get_parcel_outbound_call :
  snd (invoke fetchDown sampleClient (CallGetParcel "parcel_1") [])
  = [("https://api.goshippo.com/parcels/parcel_1",
      {| method := None; body := None;
         headers := Some [("Authorization", "ShippoToken shippo_test_0123");
                          ("Content-Type", "application/json")] |})].
Proof. reflexivity. Qed.

Lemma invoke_log_at_most_one
    (fetch : Fetch) (this : ShippoClientImpl) (call : ClientCall) (log : NetLog) :
  exists entries,
    (List.length entries <= 1)%nat
    /\ snd (invoke fetch this call log) = (log ++ entries)%list.
Proof.
  destruct (orUndefined (apiKey (credentials this))) as [key |] eqn:Hkey.
  - destruct (invoke_log_with_key fetch this key call log Hkey)
      as (endpoint & verb & body & H).
    eexists. split; [| exact H]. simpl. lia.
  - exists []. split; [simpl; lia |].
    rewrite (invoke_without_key fetch this call log Hkey).
    simpl. now rewrite app_nil_r.
Qed.

(** X6.  A tool invocation makes at most one network call, for every
    tool of the handler's shape, every argument object and every
    behaviour of the remote side: the log is kept and grows by at most
    one entry. *)
Theorem X6_tool_invocation_at_most_one_call
    (fetch : Fetch) (this : ShippoClientImpl) (t : Tool) (args : object)
    (log : NetLog) :
  exists entries,
    (List.length entries <= 1)%nat
    /\ snd (handler fetch this t args log) = (log ++ entries)%list.
Proof.
  unfold handler, tryCatch, bind, lift, ret.
  destruct (clientCall t args) as [call | e0].
  - destruct (invoke_log_at_most_one fetch this call log) as (entries & Hlen & H).
    exists entries. split; [exact Hlen |].
    destruct (invoke fetch this call log) as [[v | e] l]; simpl in H; subst l;
      [destruct (render t args v) |]; reflexivity.
  - exists []. split; [simpl; lia |]. simpl. now rewrite app_nil_r.
Qed.

(* ================================================================= *)
(** ** Tools without a key, and the default parcel template tool *)

Ltac resolve_call E :=
  simpl in E; unfold obind in E;
  repeat match type of E with
         | context [match ?x with _ => _ end] => destruct x; try discriminate E
         end;
  inversion E; subst; clear E.

(** X7.  Without a usable key no registered tool makes a network call.
    Every tool but shippo_test_connection answers with an error
    response (isError true); shippo_test_connection answers with the
    ordinary JSON of {connected: false, message} and sets no error
    flag. *)
Theorem X7_tools_without_key
    (formatErrorForLogging : JsError -> value) (retryable : JsError -> bool)
    (formatBatchAsMarkdown formatTrackingAsMarkdown : value -> Outcome string)
    (fetch : Fetch) (this : ShippoClientImpl) (t : Tool) (args : object)
    (log : NetLog) :
  In t (tools formatErrorForLogging retryable
              formatBatchAsMarkdown formatTrackingAsMarkdown) ->
  orUndefined (apiKey (credentials this)) = None ->
  exists response,
    handler fetch this t args log = (Ok response, log)
    /\ (toolName t <> "shippo_test_connection" -> isError response = Some true)
    /\ (toolName t = "shippo_test_connection" -> response = notConnected).
Proof.
  intros Hin Hkey. unfold handler, tryCatch, bind, lift, ret.
  destruct (clientCall t args) as [call | e0] eqn:E.
  - rewrite (invoke_without_key fetch this call log Hkey).
    simpl in Hin.
    repeat (destruct Hin as [<- | Hin];
            [resolve_call E; eexists; split; [reflexivity |];
             split; [reflexivity | discriminate] |]).
    destruct Hin as [<- | []].
    resolve_call E. eexists. split; [reflexivity |].
    split; [intros H; now contradiction H | reflexivity].
  - simpl in Hin.
    repeat (destruct Hin as [<- | Hin];
            [eexists; split; [reflexivity |];
             split; [reflexivity | discriminate] |]).
    first [contradiction | destruct Hin as [<- | []]; discriminate E].
Qed.

Lemma X7_tools_without_key_witness :
  exists response,
    handler fetchDown (createShippoClient {| apiKey := None; baseUrl := None |})
            (shippo_create_parcel sampleErrorInfo sampleRetryable)
            [("length", VNumber (Int 5))] []
    = (Ok response, [])
    /\ isError response = Some true.
Proof.
  destruct (X7_tools_without_key sampleErrorInfo sampleRetryable
              sampleLayout sampleLayout fetchDown
              (createShippoClient {| apiKey := None; baseUrl := None |})
              (shippo_create_parcel sampleErrorInfo sampleRetryable)
              [("length", VNumber (Int 5))] []
              ltac:(simpl; tauto) eq_refl) as (response & H & Herr & _).
  exists response. split; [exact H | apply Herr; discriminate].
Defined.

(** X8.  When the remote side answers the default-parcel-template
    request with a 404, the tool shippo_get_default_parcel_template
    reports an ordinary result, the JSON of
    {message: No default parcel template set}, not an error, for every
    format argument and every 404 body. *)
Theorem X8_no_default_parcel_template_is_no_error
    (formatErrorForLogging : JsError -> value) (retryable : JsError -> bool)
    (fetch : Fetch) (this : ShippoClientImpl) (key : string) (args : object)
    (log : NetLog) (r : Response) :
  orUndefined (apiKey (credentials this)) = Some key ->
  fetch (fst (outbound this key parcelTemplatePath noOptions))
        (snd (outbound this key parcelTemplatePath noOptions)) = Responds r ->
  status r = 404 ->
  handler fetch this
          (shippo_get_default_parcel_template formatErrorForLogging retryable)
          args log
  = (Ok noTemplateMessage,
     (log ++ [outbound this key parcelTemplatePath noOptions])%list).
Proof.
  intros Hkey Hfetch H404.
  assert (Hreq : request fetch this parcelTemplatePath noOptions log
                 = (Throw (ShippoApiError (apiErrorMessage r) 404),
                    (log ++ [outbound this key parcelTemplatePath noOptions])%list)).
  { rewrite <- H404.
    apply (request_api_error fetch this parcelTemplatePath noOptions log key
             Hkey r Hfetch); try (rewrite H404; discriminate).
    unfold ok. now rewrite H404. }
  unfold handler, tryCatch, bind, lift, ret. simpl clientCall.
  unfold invoke, getDefaultParcelTemplate, tryCatch.
  fold parcelTemplatePath. rewrite Hreq. reflexivity.
Qed.

Lemma X8_no_default_parcel_template_witness :
  fst (handler (fetchAlways (jsonReply 404 (VObject [("detail", VString "Not found.")])))
         sampleClient
         (shippo_get_default_parcel_template sampleErrorInfo sampleRetryable)
         [("format", VString "markdown")] [])
  = Ok noTemplateMessage.
Proof.
  exact (f_equal fst
           (X8_no_default_parcel_template_is_no_error
              sampleErrorInfo sampleRetryable
              (fetchAlways (jsonReply 404 (VObject [("detail", VString "Not found.")])))
              sampleClient "shippo_test_0123" [("format", VString "markdown")] []
              _ eq_refl eq_refl eq_refl)).
Defined.

(* ================================================================= *)
(** ** The worker: routing and credentials *)

Lemma validateCredentials_ok (creds : TenantCredentials) :
  validateCredentials creds = Ok tt
  <-> exists key, orUndefined (apiKey creds) = Some key.
Proof.
  unfold validateCredentials.
  destruct (orUndefined (apiKey creds)) as [key |]; split.
  - eauto.
  - reflexivity.
  - discriminate.
  - intros [key H]. discriminate H.
Qed.

(** X9.  The worker hands a request to the MCP handler exactly when it
    is a POST to /mcp whose X-Shippo-API-Key header is present and not
    empty, and then with the credentials parsed from the request's
    headers; a POST to /mcp without such a key is answered with status
    401 and never reaches the MCP handler. *)
Theorem X9_worker_serves_mcp_iff (request : InboundRequest)
    (creds : TenantCredentials) :
  (workerFetch request = ServeMcp creds
   <-> pathname request = "/mcp" /\ httpMethod request = "POST"
       /\ creds = parseTenantCredentials (inboundHeaders request)
       /\ exists key, orUndefined (apiKey creds) = Some key)
  /\ (pathname request = "/mcp" -> httpMethod request = "POST" ->
      orUndefined (Headers_get (inboundHeaders request) "X-Shippo-API-Key") = None ->
      exists response,
        workerFetch request = Reply response /\ workerStatus response = 401).
Proof.
  unfold workerFetch. split; [split |].
  - destruct (String.eqb_spec (pathname request) "/health") as [Hh | Hh];
      [discriminate |].
    destruct (String.eqb_spec (pathname request) "/mcp") as [Hm | Hm]; simpl.
    + destruct (String.eqb_spec (httpMethod request) "POST") as [Hp | Hp].
      * destruct (validateCredentials _) as [[] | e] eqn:Hv; [| discriminate].
        intros H. inversion H. subst creds.
        repeat split; trivial. now apply validateCredentials_ok.
      * destruct (String.eqb (pathname request) "/sse"); discriminate.
    + destruct (String.eqb (pathname request) "/sse"); discriminate.
  - intros (Hpath & Hmethod & -> & Hkey).
    rewrite Hpath, Hmethod. simpl.
    apply validateCredentials_ok in Hkey. now rewrite Hkey.
  - intros Hpath Hmethod Hkey. rewrite Hpath, Hmethod. simpl.
    unfold validateCredentials, parseTenantCredentials. simpl apiKey.
    assert (E : orUndefined (orUndefined
                  (Headers_get (inboundHeaders request) "X-Shippo-API-Key")) = None)
      by now rewrite Hkey.
    rewrite E. eexists. split; reflexivity.
Qed.

Lemma X9_worker_rejects_empty_key_witness :
  exists response,
    workerFetch {| pathname := "/mcp"; httpMethod := "POST";
                   inboundHeaders := [("x-shippo-api-key", EmptyString)] |}
    = Reply response /\ workerStatus response = 401.
Proof.
  exact (proj2 (X9_worker_serves_mcp_iff
                  {| pathname := "/mcp"; httpMethod := "POST";
                     inboundHeaders := [("x-shippo-api-key", EmptyString)] |}
                  sampleCredentials)
           eq_refl eq_refl eq_refl).
Defined.

(** X10.  Behind the worker the client's own missing-key failure
    cannot occur: whenever the worker hands a request to the MCP
    handler, every method of the client created for those credentials
    goes to the network with exactly one call. *)
Theorem X10_served_requests_reach_the_network
    (request : InboundRequest) (creds : TenantCredentials)
    (fetch : Fetch) (call : ClientCall) (log : NetLog) :
  workerFetch request = ServeMcp creds ->
  networkCalls (snd (invoke fetch (createShippoClient creds) call log))
  = S (networkCalls log).
Proof.
  intros Hserve. unfold workerFetch in Hserve.
  destruct (String.eqb (pathname request) "/health"); [discriminate |].
  destruct (String.eqb (pathname request) "/mcp"
            && String.eqb (httpMethod request) "POST").
  - destruct (validateCredentials _) as [[] | e] eqn:Hv; [| discriminate].
    inversion Hserve. subst creds.
    apply validateCredentials_ok in Hv as [key Hkey].
    destruct (invoke_log_with_key fetch
                (createShippoClient (parseTenantCredentials (inboundHeaders request)))
                key call log Hkey) as (endpoint & verb & body & H).
    rewrite H. unfold networkCalls. rewrite length_app. simpl. lia.
  - destruct (String.eqb (pathname request) "/sse"); discriminate.
Qed.

Lemma X10_served_requests_witness :
  networkCalls
    (snd (invoke fetchDown
            (createShippoClient
               (parseTenantCredentials [("X-Shippo-API-Key", "shippo_live_1")]))
            CallListServiceGroups [])) = 1%nat.
Proof.
  exact (X10_served_requests_reach_the_network
           {| pathname := "/mcp"; httpMethod := "POST";
              inboundHeaders := [("X-Shippo-API-Key", "shippo_live_1")] |}
           _ fetchDown CallListServiceGroups [] eq_refl).
Defined.

Lemma distinct_NoDup (names : list string) :
  distinct names = true -> NoDup names.
Proof.
  induction names as [| n rest IH]; simpl; intros H.
  - constructor.
  - apply andb_true_iff in H as [Hn Hrest]. constructor.
    + intros Hin. apply negb_true_iff in Hn.
      assert (existsb (String.eqb n) rest = true) as Hex.
      { apply existsb_exists. exists n. split; [exact Hin | apply String.eqb_refl]. }
      congruence.
    + now apply IH.
Qed.

(** X11.  The tool list that the worker's default response advertises
    is exactly the list of the names of the registered tools, in the
    order of registration, and no name occurs twice. *)
Theorem X11_documented_tools_are_the_registered_ones
    (formatErrorForLogging : JsError -> value) (retryable : JsError -> bool)
    (formatBatchAsMarkdown formatTrackingAsMarkdown : value -> Outcome string) :
  let registered :=
    map toolName (tools formatErrorForLogging retryable
                        formatBatchAsMarkdown formatTrackingAsMarkdown) in
  lookup "tools" apiDocumentation = Some (VArray (map VString registered))
  /\ registered = documentedTools
  /\ NoDup registered.
Proof.
  cbv zeta. split; [reflexivity |]. split; [reflexivity |].
  apply distinct_NoDup. reflexivity.
Qed.

(* ================================================================= *)
(** ** Environment numbers *)


Example page_size_defaults :
  getDefaultPageSize [("DEFAULT_PAGE_SIZE", VString "twenty")] = Int 20
  /\ getMaxPageSize [("MAX_PAGE_SIZE", VString "250")] = Int 250
  /\ getCharacterLimit [] = Int 50000.
Proof. repeat split; reflexivity. Qed.

(** Leading white space is skipped, also the no-break space U+00A0 (two
    bytes in UTF-8), and what follows the digits is ignored. *)
Example page_size_after_white_space :
  getMaxPageSize
    [("MAX_PAGE_SIZE",
      VString (String (ascii_of_nat 194) (String (ascii_of_nat 160) "42 items")))]
  = Int 42.
Proof. reflexivity. Qed.

(** A page size of 310 digits is beyond the doubles: it is read as
    Infinity, which is not an integer. *)
Example page_size_beyond_the_doubles :
  getMaxPageSize
    [("MAX_PAGE_SIZE",
      VString "1000000000000000000000000000000000000000000000000000000000000000000000000000000000000000000000000000000000000000000000000000000000000000000000000000000000000000000000000000000000000000000000000000000000000000000000000000000000000000000000000000000000000000000000000000000000000000000000000000000000000000000000")]
  = PosInfinity.
Proof. vm_compute. reflexivity. Qed.

(* ================================================================= *)
(** ** The base URL of a tenant *)

Lemma orUndefined_idempotent (s : option string) :
  orUndefined (orUndefined s) = orUndefined s.
Proof.
  destruct s as [x |]; [| reflexivity]. simpl.
  destruct x; reflexivity.
Qed.

(** X13.  The client of a tenant sends its one call, with the tenant's
    key in the Authorization header, to the URL made of the
    X-Shippo-Base-URL header and the endpoint when that header is
    present and not empty, and of the default origin and the endpoint
    otherwise. *)
Theorem X13_requests_go_to_the_tenant_base_url
    (fetch : Fetch) (hs : list (string * string)) (key endpoint : string)
    (options : RequestInit) (log : NetLog) :
  orUndefined (Headers_get hs "X-Shippo-API-Key") = Some key ->
  snd (request fetch (createShippoClient (parseTenantCredentials hs))
         endpoint options log)
  = (log ++ [((tenantBaseUrl hs ++ endpoint)%string,
              withHeaders (authHeaders key) options)])%list.
Proof.
  intros Hkey.
  rewrite (request_log_with_key fetch _ key endpoint options log).
  - unfold outbound, createShippoClient, parseTenantCredentials, tenantBaseUrl.
    simpl. now rewrite orUndefined_idempotent.
  - simpl. now rewrite orUndefined_idempotent.
Qed.

Lemma X13_tenant_base_url_witness :
  snd (request fetchDown
         (createShippoClient
            (parseTenantCredentials [("X-Shippo-API-Key", "k1");
                                     ("X-Shippo-Base-URL", "https://sandbox.test")]))
         "/orders" noOptions [])
  = [("https://sandbox.test/orders", withHeaders (authHeaders "k1") noOptions)].
Proof.
  exact (X13_requests_go_to_the_tenant_base_url fetchDown
           [("X-Shippo-API-Key", "k1");
            ("X-Shippo-Base-URL", "https://sandbox.test")]
           "k1" "/orders" noOptions [] eq_refl).
Defined.

(* ================================================================= *)
(** ** Display names: formatKey and the singular heading *)

Lemma append_assoc3 (a b c : string) : ((a ++ b) ++ c = a ++ (b ++ c))%string.
Proof. induction a as [| x a IH]; simpl; [reflexivity | now rewrite IH]. Qed.

Lemma splitOn_not_nil (sep : ascii) (s : string) : splitOn sep s <> [].
Proof.
  destruct s as [| c rest]; simpl; [discriminate |].
  destruct (Ascii.eqb c sep); [discriminate |].
  destruct (splitOn sep rest); discriminate.
Qed.

Lemma splitOn_append (sep : ascii) (a b : string) :
  splitOn sep (a ++ String sep b) = (splitOn sep a ++ splitOn sep b)%list.
Proof.
  induction a as [| c a IH]; simpl.
  - now rewrite Ascii.eqb_refl.
  - destruct (Ascii.eqb c sep).
    + now rewrite IH.
    + rewrite IH. pose proof (splitOn_not_nil sep a) as Hne.
      destruct (splitOn sep a) as [| w ws]; [contradiction | reflexivity].
Qed.

Lemma splitOn_without (sep : ascii) (s : string) :
  countChar sep s = 0%nat -> splitOn sep s = [s].
Proof.
  induction s as [| c s IH]; simpl; [reflexivity |].
  rewrite (Ascii.eqb_sym c sep).
  destruct (Ascii.eqb sep c); [discriminate |].
  intros H. now rewrite (IH H).
Qed.

Lemma join_app (sep : string) (l1 l2 : list string) :
  l1 <> [] -> l2 <> [] ->
  join sep (l1 ++ l2) = (join sep l1 ++ sep ++ join sep l2)%string.
Proof.
  intros H1 H2. induction l1 as [| p rest IH]; [contradiction |].
  destruct rest as [| q rest].
  - simpl. destruct l2; [contradiction | reflexivity].
  - change (join sep ((p :: q :: rest) ++ l2))
      with (p ++ sep ++ join sep ((q :: rest) ++ l2))%string.
    rewrite IH by discriminate.
    change (join sep (p :: q :: rest)) with (p ++ sep ++ join sep (q :: rest))%string.
    now rewrite !append_assoc3.
Qed.

(** X14.  formatKey turns every underscore of a key into a space and
    capitalises the word on each side: the display name of
    [a ++ _ ++ b] is that of [a], a space, and that of [b], and the
    display name of a key without underscore is the key capitalised. *)
Theorem X14_formatKey_splits_at_underscores :
  (forall a b : string,
     formatKey (a ++ String "_" b) = (formatKey a ++ " " ++ formatKey b)%string)
  /\ (forall key : string,
        countChar "_" key = 0%nat -> formatKey key = capitalize key).
Proof.
  split.
  - intros a b. unfold formatKey.
    rewrite splitOn_append, map_app.
    apply join_app; intros H; apply map_eq_nil in H;
      now apply splitOn_not_nil in H.
  - intros key H. unfold formatKey. now rewrite (splitOn_without _ _ H).
Qed.

Example formatKey_tracking_number : formatKey "tracking_number" = "Tracking Number".
Proof. reflexivity. Qed.

Lemma dropFinalS_append_s (s : string) : dropFinalS (s ++ "s") = s.
Proof.
  induction s as [| c s IH]; [reflexivity |].
  simpl. rewrite IH. destruct s; reflexivity.
Qed.

(** X15.  The heading that formatObjectAsMarkdown gives a single entity
    drops exactly one final s from the entity type before capitalising
    it, whatever precedes that s: for the entity type [e ++ s] the
    first line is the heading of [e] (so the type address is headed
    Addres), followed by a blank line. *)
Theorem X15_object_heading_drops_one_final_s (data : object) (e : string) :
  exists fields,
    formatObjectAsMarkdown data (e ++ "s")
    = join newline (("## " ++ capitalize e)%string :: EmptyString :: fields).
Proof.
  unfold formatObjectAsMarkdown. rewrite dropFinalS_append_s.
  eexists. reflexivity.
Qed.

Example address_heading :
  formatObjectAsMarkdown [("object_id", VString "addr_1"); ("company", VNull)]
                         "address"
  = join newline ["## Addres"; EmptyString; "**Object Id:** addr_1"].
Proof. reflexivity. Qed.

(* ================================================================= *)
(** ** Separators of the query string *)

Lemma buildQueryString_as_specified (entries : object) :
  NoDup (map fst entries) ->
  buildQueryString (Some entries)
  = match presentParams entries with
    | [] => EmptyString
    | present => ("?" ++ join "&" (map serializedParam present))%string
    end.
Proof.
  intros Hnodup. unfold buildQueryString, presentParams.
  change (fold_left _ entries []) with (fold_left addParam entries []).
  rewrite fold_addParam by (trivial; intros k _ []).
  simpl app. rewrite URLSearchParams_toString_empty.
  unfold URLSearchParams_toString. rewrite map_map.
  destruct (filter (fun kv => isPresent (snd kv)) entries); reflexivity.
Qed.

Lemma countChar_append (c : ascii) (a b : string) :
  countChar c (a ++ b) = (countChar c a + countChar c b)%nat.
Proof.
  induction a as [| x a IH]; simpl; [reflexivity |]. rewrite IH. lia.
Qed.

(** No encoded byte is a question mark, an ampersand or an equals
    sign. *)
Lemma urlencodeByte_no_separator (b : ascii) :
  countChar "?" (urlencodeByte b) = 0%nat
  /\ countChar "&" (urlencodeByte b) = 0%nat
  /\ countChar "=" (urlencodeByte b) = 0%nat.
Proof.
  destruct b as [[] [] [] [] [] [] [] []]; repeat split; reflexivity.
Qed.

Lemma urlencode_no_separator (s : string) :
  countChar "?" (urlencode s) = 0%nat
  /\ countChar "&" (urlencode s) = 0%nat
  /\ countChar "=" (urlencode s) = 0%nat.
Proof.
  induction s as [| b s (IH1 & IH2 & IH3)]; simpl; [auto |].
  destruct (urlencodeByte_no_separator b) as (H1 & H2 & H3).
  rewrite !countChar_append, H1, H2, H3, IH1, IH2, IH3. auto.
Qed.

Lemma serializedParam_separators (kv : string * value) :
  countChar "?" (serializedParam kv) = 0%nat
  /\ countChar "&" (serializedParam kv) = 0%nat
  /\ countChar "=" (serializedParam kv) = 1%nat.
Proof.
  unfold serializedParam.
  destruct (urlencode_no_separator (fst kv)) as (H1 & H2 & H3).
  destruct (urlencode_no_separator (ToString (snd kv))) as (G1 & G2 & G3).
  rewrite !countChar_append, H1, H2, H3, G1, G2, G3. simpl. auto.
Qed.

Lemma join_params_separators (present : object) :
  countChar "?" (join "&" (map serializedParam present)) = 0%nat
  /\ countChar "&" (join "&" (map serializedParam present))
     = Nat.pred (List.length present)
  /\ countChar "=" (join "&" (map serializedParam present))
     = List.length present.
Proof.
  induction present as [| kv rest (IH1 & IH2 & IH3)]; [simpl; auto |].
  destruct (serializedParam_separators kv) as (H1 & H2 & H3).
  destruct rest as [| kv' rest'].
  - simpl. auto.
  - change (join "&" (map serializedParam (kv :: kv' :: rest')))
      with (serializedParam kv ++ "&"
              ++ join "&" (map serializedParam (kv' :: rest')))%string.
    rewrite !countChar_append, H1, H2, H3, IH1, IH2, IH3. simpl. auto.
Qed.

(** X16.  Names and values cannot add or remove parameters: for the
    entries of an object (its keys are distinct) with [n] present
    parameters, the query string holds exactly [n] equals signs,
    [n - 1] ampersands (none for [n = 0]), and one question mark, the
    leading one, unless [n = 0]. *)
Theorem X16_query_string_separators (entries : object) :
  NoDup (map fst entries) ->
  let n := List.length (presentParams entries) in
  let query := buildQueryString (Some entries) in
  countChar "=" query = n
  /\ countChar "&" query = Nat.pred n
  /\ countChar "?" query = (if (n =? 0)%nat then 0 else 1)%nat.
Proof.
  intros Hnodup. cbv zeta. rewrite (buildQueryString_as_specified _ Hnodup).
  destruct (presentParams entries) as [| kv rest] eqn:E; [simpl; auto |].
  destruct (join_params_separators (kv :: rest)) as (H1 & H2 & H3).
  rewrite !countChar_append, H1, H2, H3. simpl. auto.
Qed.

Lemma X16_query_string_separators_witness :
  countChar "=" (buildQueryString
                   (Some [("carrier", VString "a=b&c=d"); ("page", VNull);
                          ("results", VNumber (Int 5))])) = 2%nat.
Proof.
  refine (proj1 (X16_query_string_separators
                   [("carrier", VString "a=b&c=d"); ("page", VNull);
                    ("results", VNumber (Int 5))] _)).
  repeat constructor; simpl; intuition discriminate.
Defined.

(* ================================================================= *)
(** ** What the Markdown formatters need of the data *)










Example generic_table_unconvertible_cell :
  formatGenericTable [VObject [("a", VObject [("toString", VNumber (Int 1))])]]
  = Throw (OtherError "TypeError" "Cannot convert object to primitive value").
Proof. reflexivity. Qed.

(** A hole that reads a property of an object throws only when the
    conversion to text does. *)
Lemma hole_object_throws (o : object) (k : string) (e : JsError) :
  hole (VObject o) [k] = Throw e ->
  e = OtherError "TypeError" "Cannot convert object to primitive value".
Proof.
  unfold hole, path, getProp. cbn [obind]. apply String_of_TypeError.
Qed.

(** X18.  The rates table needs the service level of every rate: for a
    page of rates whose first rate is an object without [servicelevel],
    the Markdown rendering throws a TypeError while the JSON rendering
    of the same data succeeds. *)
Theorem X18_rates_markdown_needs_servicelevel
    (page rate : object) (rest : list value) :
  lookup "results" page = Some (VArray (VObject rate :: rest)) ->
  lookup "servicelevel" rate = None ->
  (exists msg,
     formatResponse (VObject page) "markdown" "rates"
     = Throw (OtherError "TypeError" msg))
  /\ (exists response,
        formatResponse (VObject page) "json" "rates" = Ok response).
Proof.
  intros Hres Hsl. split.
  - unfold formatResponse, formatAsMarkdown, isPaginatedResponse.
    simpl String.eqb. cbv iota. rewrite Hres.
    unfold formatPaginatedAsMarkdown, formatPaginatedWith, paginatedHeader.
    cbn [count results next].
    destruct (String_of (getPropOpt (VObject page) "count")) as [total | e] eqn:Hc;
      [| apply String_of_TypeError in Hc; subst; cbn [obind]; eauto].
    cbn [obind]. simpl List.length. simpl Nat.eqb. cbv iota.
    change (entityTable "rates") with formatRatesTable.
    unfold formatRatesTable, table. cbn [forEach template].
    unfold lit. cbn [obind].
    destruct (hole (VObject rate) ["object_id"]) as [id | e] eqn:Hid;
      [| apply hole_object_throws in Hid; subst; cbn [obind]; eauto].
    cbn [obind].
    destruct (hole (VObject rate) ["provider"]) as [provider | e] eqn:Hprovider;
      [| apply hole_object_throws in Hprovider; subst; cbn [obind]; eauto].
    cbn [obind].
    assert (Hname : hole (VObject rate) ["servicelevel"; "name"]
                    = Throw (OtherError "TypeError"
                               "Cannot read properties of undefined (reading 'name')")).
    { unfold hole, path, getProp. now rewrite Hsl. }
    rewrite Hname. cbn [obind]. eauto.
  - unfold formatResponse. simpl. eauto.
Qed.

Lemma X18_rates_markdown_witness :
  exists msg,
    formatResponse
      (VObject [("count", VNumber (Int 1));
                ("results", VArray [VObject [("object_id", VString "rate_1");
                                             ("amount", VString "7.50")]])])
      "markdown" "rates"
    = Throw (OtherError "TypeError" msg).
Proof.
  exact (proj1 (X18_rates_markdown_needs_servicelevel
                  [("count", VNumber (Int 1));
                   ("results", VArray [VObject [("object_id", VString "rate_1");
                                                ("amount", VString "7.50")]])]
                  [("object_id", VString "rate_1"); ("amount", VString "7.50")]
                  [] eq_refl eq_refl)).
Defined.

(** X19.  Rendering a single entity cannot fail: for an object that is
    no page (it has no array under [results]) formatResponse returns a
    response without error flag, in either format and for every entity
    type. *)
Theorem X19_single_entity_rendering_is_total
    (data : object) (format entityType : string) :
  (forall items, lookup "results" data <> Some (VArray items)) ->
  exists response,
    formatResponse (VObject data) format entityType = Ok response
    /\ isError response = None.
Proof.
  intros Hnopage. unfold formatResponse, formatAsMarkdown, isPaginatedResponse.
  destruct (String.eqb format "markdown").
  - destruct (lookup "results" data) as [[ | | b | n | s | items | props] |];
      simpl; eauto.
    now contradiction (Hnopage items).
  - eauto.
Qed.

Lemma X19_single_entity_witness :
  exists response,
    formatResponse (VObject [("object_id", VString "addr_1"); ("test", VBool true)])
                   "markdown" "address" = Ok response
    /\ isError response = None.
Proof.
  apply X19_single_entity_rendering_is_total.
  intros items. discriminate.
Defined.

(* ================================================================= *)
(** ** Tools on a successful remote call *)

(** X20.  A live-rate answer without [results] becomes an error at the
    tool: when the remote side answers the live-rate request with a
    success whose JSON object has no [results], createLiveRate returns
    undefined, reading its length throws, and the tool returns
    formatError of that TypeError although the remote call
    succeeded. *)
Theorem X20_live_rate_without_results_is_an_error
    (formatErrorForLogging : JsError -> value) (retryable : JsError -> bool)
    (fetch : Fetch) (this : ShippoClientImpl) (key : string) (input : object)
    (log : NetLog) (r : Response) (props : object) :
  orUndefined (apiKey (credentials this)) = Some key ->
  fetch (fst (outbound this key "/live-rates" (liveRateOptions input)))
        (snd (outbound this key "/live-rates" (liveRateOptions input)))
    = Responds r ->
  ok r = true -> status r <> 204 ->
  responseBody r = Json (VObject props) ->
  lookup "results" props = None ->
  handler fetch this (shippo_create_live_rate formatErrorForLogging retryable)
          input log
  = (Ok (formatError formatErrorForLogging retryable
           (OtherError "TypeError"
              "Cannot read properties of undefined (reading 'length')")),
     (log ++ [outbound this key "/live-rates" (liveRateOptions input)])%list).
Proof.
  intros Hkey Hfetch Hok H204 Hbody Hres.
  pose proof (request_success fetch this "/live-rates" (liveRateOptions input)
                log key Hkey r Hfetch _ Hok H204 Hbody) as Hreq.
  unfold liveRateOptions in Hreq.
  unfold handler, tryCatch, bind, lift, ret.
  cbn [clientCall shippo_create_live_rate jsonTool invoke].
  unfold createLiveRate, send, bind, lift.
  rewrite Hreq. unfold getProp at 1. rewrite Hres. reflexivity.
Qed.

Lemma X20_live_rate_without_results_witness :
  fst (handler (fetchAlways (jsonReply 200 (VObject [("rates", VArray [])])))
         sampleClient (shippo_create_live_rate sampleErrorInfo sampleRetryable)
         [("address_from", VString "addr_1")] [])
  = Ok (errorEnvelope
          "Error: Cannot read properties of undefined (reading 'length')"
          (VObject [("message",
                     VString "Cannot read properties of undefined (reading 'length')")])).
Proof.
  exact (f_equal fst
           (X20_live_rate_without_results_is_an_error
              sampleErrorInfo sampleRetryable
              (fetchAlways (jsonReply 200 (VObject [("rates", VArray [])])))
              sampleClient "shippo_test_0123"
              [("address_from", VString "addr_1")] [] _ [("rates", VArray [])]
              eq_refl eq_refl eq_refl ltac:(discriminate) eq_refl eq_refl)).
Defined.

(** X21.  In JSON format the address list tool passes the remote
    answer through: for every successful JSON body, the tool's text is
    JSON.stringify(body, null, 2) of exactly that body, with no error
    flag, and the request goes to /addresses with the query string of
    {results, page}. *)
Theorem X21_list_addresses_json_is_pass_through
    (formatErrorForLogging : JsError -> value) (retryable : JsError -> bool)
    (fetch : Fetch) (this : ShippoClientImpl) (key : string) (args : object)
    (log : NetLog) (r : Response) (payload : value) :
  let endpoint := ("/addresses" ++ buildQueryString (pagination args))%string in
  orUndefined (apiKey (credentials this)) = Some key ->
  fetch (fst (outbound this key endpoint noOptions))
        (snd (outbound this key endpoint noOptions)) = Responds r ->
  ok r = true -> status r <> 204 ->
  responseBody r = Json payload ->
  stringArg args "format" <> "markdown" ->
  handler fetch this (shippo_list_addresses formatErrorForLogging retryable)
          args log
  = (Ok (textResponse (JSON_stringify_2 payload)),
     (log ++ [outbound this key endpoint noOptions])%list).
Proof.
  cbv zeta. intros Hkey Hfetch Hok H204 Hbody Hformat.
  unfold handler, tryCatch, bind, lift, ret. simpl clientCall.
  unfold invoke, listAddresses.
  rewrite (request_success fetch this _ _ log key Hkey r Hfetch _ Hok H204 Hbody).
  simpl render. unfold formatResponse.
  destruct (String.eqb_spec (stringArg args "format") "markdown");
    [contradiction | reflexivity].
Qed.

Lemma X21_list_addresses_json_witness :
  handler (fetchAlways (jsonReply 200 (VObject [("count", VNumber (Int 0));
                                                ("results", VArray [])])))
          sampleClient (shippo_list_addresses sampleErrorInfo sampleRetryable)
          [("results", VNumber (Int 1)); ("format", VString "json")] []
  = (Ok (textResponse
           (JSON_stringify_2 (VObject [("count", VNumber (Int 0));
                                       ("results", VArray [])]))),
     [outbound sampleClient "shippo_test_0123" "/addresses?results=1" noOptions]).
Proof.
  exact (X21_list_addresses_json_is_pass_through sampleErrorInfo sampleRetryable
           (fetchAlways (jsonReply 200 (VObject [("count", VNumber (Int 0));
                                                 ("results", VArray [])])))
           sampleClient "shippo_test_0123"
           [("results", VNumber (Int 1)); ("format", VString "json")] []
           _ _ eq_refl eq_refl eq_refl ltac:(discriminate) eq_refl
           ltac:(discriminate)).
Defined.
